(** * Observability sandbox: the sample application [app/main.go]

    A shallow embedding of the HTTP service of [app/main.go] and of the
    parts of its libraries (net/http, log/slog, math/rand, time, the
    OpenTelemetry API, SDK and otelhttp) that the handlers call, with the
    properties of the request pipeline and of the provider lifecycle.

    Conventions.
    - Go's [int64] and [time.Duration] are [Z] with the wrap-around
      written out ([Int64.wrap]).
    - [float32] is [spec_float] at precision 24 and maximal exponent 128.
    - The process state touched by a request (clock, span identifiers,
      spans handed to the span processor, lines written to standard
      output, the response being written) is one record, threaded by a
      state monad.
    - What the process-wide random source yields to the three calls of
      one request is an input of the handler ([Rand.Draws]).
    - Time is the process clock; [time.Sleep] alone advances it, by as
      much as the scheduler decides. *)

From stdpp Require Import gmap strings.
From Stdlib Require Import ZArith Lia List String Ascii Bool QArith.
From Stdlib Require Import Floats.SpecFloat.
Import ListNotations.

Local Open Scope Z_scope.
Local Open Scope string_scope.

(* ===================================================================== *)
(** * Machine integers and durations *)
(* ===================================================================== *)

Module Int64.

Definition modulus : Z := 2 ^ 64.
Definition half : Z := 2 ^ 63.

(** Two's complement reduction of an integer to 64 bits. *)
Definition wrap (z : Z) : Z := (z + half) mod modulus - half.

Definition mul (a b : Z) : Z := wrap (a * b).

(** Go's [/] on integers truncates toward zero. *)
Definition quo (a b : Z) : Z := wrap (Z.quot a b).

End Int64.

Module Time.

(** [type Duration int64], a count of nanoseconds. *)
Definition Duration := Z.

Definition Nanosecond : Duration := 1.
Definition Microsecond : Duration := 1000 * Nanosecond.
Definition Millisecond : Duration := 1000 * Microsecond.

(** The conversion [time.Duration(n)] of an [int] (64 bits here). *)
Definition of_int (n : Z) : Duration := Int64.wrap n.

(** [func (d Duration) Milliseconds() int64 { return int64(d) / 1e6 }] *)
Definition Milliseconds (d : Duration) : Z := Int64.quo d 1000000.

End Time.

(* ===================================================================== *)
(** * float32 *)
(* ===================================================================== *)

Module Float32.

Definition prec : Z := 24.
Definition emax : Z := 128.

Definition float32 := spec_float.

Definition valid (x : float32) : bool := valid_binary prec emax x.

(** The comparison [x < y] of two float32 values. *)
Definition ltb (x y : float32) : bool := SFltb x y.

Definition of_Z (z : Z) : float32 := binary_normalize prec emax z 0 false.

(** The untyped constant [0.2] converted to float32: the float32 nearest
    to 1/5, which is 13421773 * 2^-26 (0x3E4CCCCD), just above 1/5. *)
Definition c_0_2 : float32 := S754_finite false 13421773 (-26).

(** The exact value of a finite float32, as a rational. *)
Definition to_Q (x : float32) : Q :=
  match x with
  | S754_finite s m e =>
      let v := match e with
               | Z0 => Zpos m # 1
               | Zpos p => (Zpos m * Zpos (2 ^ p)) # 1
               | Zneg p => Zpos m # (2 ^ p)
               end in
      if s then Qopp v else v
  | _ => 0%Q
  end.

Definition is_finite (x : float32) : bool :=
  match x with
  | S754_zero _ | S754_finite _ _ _ => true
  | _ => false
  end.

(** [x] is a float32 of the half-open interval [0.0, 1.0): what
    [rand.Float32] returns. *)
Definition unit_interval (x : float32) : Prop :=
  valid x = true /\ is_finite x = true /\ (0 <= to_Q x)%Q /\ (to_Q x < 1)%Q.

End Float32.

(* ===================================================================== *)
(** * math/rand *)
(* ===================================================================== *)

Module Rand.

(** What the process-wide source yields to the three calls that one
    [/work] request makes, in program order: for each of the two
    [rand.Intn] calls the value of [Int31()] that its rejection loop
    accepts, an integer of [0, 2^31); for [rand.Float32()] the float32
    that it returns, of [0.0, 1.0) by the generator's contract. *)
Record Draws := {
  latency_src : Z;
  cache_src : Z;
  outcome_draw : Float32.float32
}.

(** [Intn(n)], for [0 < n < 2^31] as at both call sites: [Int31n]
    reduces the accepted value [v] to [0, n), by [v & (n-1)] when [n]
    is a power of two and by [v % n] otherwise. *)
Definition Intn (v : Z) (n : Z) : Z := v mod n.

End Rand.

(* ===================================================================== *)
(** * encoding/hex *)
(* ===================================================================== *)

Module Hex.

Definition digit (d : Z) : ascii :=
  match d with
  | 0 => "0" | 1 => "1" | 2 => "2" | 3 => "3"
  | 4 => "4" | 5 => "5" | 6 => "6" | 7 => "7"
  | 8 => "8" | 9 => "9" | 10 => "a" | 11 => "b"
  | 12 => "c" | 13 => "d" | 14 => "e" | _ => "f"
  end%char.

(** The [n] low hexadecimal digits of [z], most significant first,
    in front of [acc]. *)
Fixpoint encode_acc (n : nat) (z : Z) (acc : string) : string :=
  match n with
  | O => acc
  | S k => encode_acc k (z / 16) (String (digit (z mod 16)) acc)
  end.

(** [hex.EncodeToString] of the [bytes]-byte big-endian number [z]. *)
Definition EncodeToString (bytes : nat) (z : Z) : string :=
  encode_acc (2 * bytes) z EmptyString.

End Hex.

(* ===================================================================== *)
(** * go.opentelemetry.io/otel/trace: identifiers, span contexts, spans *)
(* ===================================================================== *)

Module Trace.

(** [type TraceID [16]byte] and [type SpanID [8]byte], read as
    big-endian numbers. *)
Definition TraceID := Z.
Definition SpanID := Z.

Definition TraceID_of (z : Z) : TraceID := z mod 2 ^ 128.
Definition SpanID_of (z : Z) : SpanID := z mod 2 ^ 64.

(** [IsValid]: the identifier has a non-zero byte. *)
Definition TraceID_IsValid (t : TraceID) : bool := negb (t =? 0)%Z.

Definition TraceID_String (t : TraceID) : string := Hex.EncodeToString 16 t.
Definition SpanID_String (s : SpanID) : string := Hex.EncodeToString 8 s.

Record SpanContext := {
  sc_TraceID : TraceID;
  sc_SpanID : SpanID
}.

(** The zero value of [SpanContext]. *)
Definition emptySpanContext : SpanContext :=
  {| sc_TraceID := 0; sc_SpanID := 0 |}.

(** A span of the SDK: name, own context, context of the parent found
    in the context it was started from, start time, and end time once
    ended. Times are nanoseconds of the process clock. *)
Record Span := {
  span_name : string;
  span_context : SpanContext;
  span_parent : SpanContext;
  span_start : Z;
  span_end : option Z
}.

(** What [trace.SpanFromContext] hands back: the span stored in the
    context, or the no-op span when there is none. *)
Inductive SpanHandle :=
| noopSpan
| sdkSpan (s : Span).

Definition SpanContextOf (h : SpanHandle) : SpanContext :=
  match h with
  | noopSpan => emptySpanContext
  | sdkSpan s => span_context s
  end.

(** A [context.Context], as far as tracing reads it: the current span. *)
Record Context := { ctx_span : option Span }.

Definition Background : Context := {| ctx_span := None |}.

Definition ContextWithSpan (ctx : Context) (s : Span) : Context :=
  {| ctx_span := Some s |}.

Definition SpanFromContext (ctx : Context) : SpanHandle :=
  match ctx_span ctx with
  | Some s => sdkSpan s
  | None => noopSpan
  end.

Definition SpanContextFromContext (ctx : Context) : SpanContext :=
  SpanContextOf (SpanFromContext ctx).

End Trace.

(* ===================================================================== *)
(** * log/slog *)
(* ===================================================================== *)

Module Slog.

(** [type Level int] *)
Definition Level := Z.
Definition LevelInfo : Level := 0.
Definition LevelError : Level := 8.

(** The dynamic values the handlers pass as [any]. *)
Inductive any :=
| a_string (s : string)
| a_int (n : Z)
| a_int64 (n : Z).

Inductive Value :=
| StringValue (s : string)
| Int64Value (n : Z).

(** [AnyValue]: both [int] and [int64] become an Int64 value. *)
Definition AnyValue (a : any) : Value :=
  match a with
  | a_string s => StringValue s
  | a_int n => Int64Value n
  | a_int64 n => Int64Value n
  end.

Record Attr := { Key : string; Val : Value }.

Definition badKey : string := "!BADKEY".

(** [argsToAttrSlice]: a string followed by a value is a key-value
    pair; a last lone string, or a value where a key is expected, gets
    the key [!BADKEY]. *)
Fixpoint argsToAttrSlice (args : list any) : list Attr :=
  match args with
  | [] => []
  | a_string k :: rest =>
      match rest with
      | [] => [ {| Key := badKey; Val := StringValue k |} ]
      | v :: rest' => {| Key := k; Val := AnyValue v |} :: argsToAttrSlice rest'
      end
  | x :: rest => {| Key := badKey; Val := AnyValue x |} :: argsToAttrSlice rest
  end.

(** One line of the JSON handler: time, level, message, then the
    attributes of the logger followed by those of the call. *)
Record LogRecord := {
  rec_time : Z;
  rec_level : Level;
  rec_msg : string;
  rec_attrs : list Attr
}.

(** A logger over the JSON handler: the minimum level of the handler
    and the attributes accumulated by [With]. *)
Record Logger := {
  lg_level : Level;
  lg_attrs : list Attr
}.

(** [slog.New(slog.NewJSONHandler(os.Stdout, nil))]: with nil options
    the handler enables [LevelInfo] and above. *)
Definition New_JSONHandler_nil : Logger :=
  {| lg_level := LevelInfo; lg_attrs := [] |}.

Definition With (l : Logger) (args : list any) : Logger :=
  {| lg_level := lg_level l;
     lg_attrs := lg_attrs l ++ argsToAttrSlice args |}.

Definition Enabled (l : Logger) (lv : Level) : bool := (lg_level l <=? lv)%Z.

Definition lookup (k : string) (attrs : list Attr) : option Value :=
  match find (fun a => String.eqb (Key a) k) attrs with
  | Some a => Some (Val a)
  | None => None
  end.

End Slog.

(* ===================================================================== *)
(** * net/http: the response writer *)
(* ===================================================================== *)

Module Http.

Definition StatusOK : Z := 200.
Definition StatusNotFound : Z := 404.
Definition StatusInternalServerError : Z := 500.

Record Request := { URL_Path : string }.

(** The state of a response being written: whether the status line
    went out, with which code, and the body bytes written so far. *)
Record ResponseWriter := {
  wroteHeader : bool;
  status : Z;
  body : string
}.

Definition fresh : ResponseWriter :=
  {| wroteHeader := false; status := 0; body := EmptyString |}.

(** [WriteHeader]: the first call fixes the status; a later call is
    superfluous and changes nothing. *)
Definition WriteHeader (code : Z) (w : ResponseWriter) : ResponseWriter :=
  if wroteHeader w then w
  else {| wroteHeader := true; status := code; body := body w |}.

(** [Write]: sends the header with 200 when none was sent, then
    appends the bytes. *)
Definition Write (b : string) (w : ResponseWriter) : ResponseWriter :=
  let w' := WriteHeader StatusOK w in
  {| wroteHeader := wroteHeader w'; status := status w';
     body := String.append (body w') b |}.

Definition LF : string := String (ascii_of_nat 10) EmptyString.

(** [http.Error(w, error, code)]: [w.WriteHeader(code)] and then
    [fmt.Fprintln(w, error)], the message followed by a newline. *)
Definition Error (msg : string) (code : Z) (w : ResponseWriter) : ResponseWriter :=
  Write (String.append msg LF) (WriteHeader code w).

(** What the client receives: status and body. A handler that wrote
    nothing gets the implicit 200. *)
Record Response := { resp_status : Z; resp_body : string }.

Definition finish (w : ResponseWriter) : Response :=
  {| resp_status := if wroteHeader w then status w else StatusOK;
     resp_body := body w |}.

End Http.

(* ===================================================================== *)
(** * The process state seen by a request, and the effects on it *)
(* ===================================================================== *)

Module Proc.

(** - [now]: the process clock, in nanoseconds; only [time.Sleep]
      advances it, the other statements of a handler take no time;
    - [wake t d]: when a goroutine that calls [time.Sleep(d)] at time
      [t], with [d] positive, runs again (the scheduler's choice);
    - [sleeps]: the durations passed to [time.Sleep] so far;
    - [id_source], [id_pos]: the values that the SDK's identifier
      generator returns, in order, and how many it has returned; by its
      contract the identifiers are non-zero;
    - [spans]: the spans ended so far, in the order they were handed to
      the span processor;
    - [stdout]: the records the JSON handler wrote to standard output;
    - [resp]: the response the request being served is writing. *)
Record World := {
  now : Z;
  wake : Z -> Z -> Z;
  sleeps : list Time.Duration;
  id_source : nat -> Z;
  id_pos : nat;
  spans : list Trace.Span;
  stdout : list Slog.LogRecord;
  resp : Http.ResponseWriter
}.

Definition set_clock (t : Z) (sl : list Time.Duration) (w : World) : World :=
  {| now := t; wake := wake w; sleeps := sl;
     id_source := id_source w; id_pos := id_pos w;
     spans := spans w; stdout := stdout w; resp := resp w |}.

Definition set_id_pos (p : nat) (w : World) : World :=
  {| now := now w; wake := wake w; sleeps := sleeps w;
     id_source := id_source w; id_pos := p;
     spans := spans w; stdout := stdout w; resp := resp w |}.

Definition set_spans (l : list Trace.Span) (w : World) : World :=
  {| now := now w; wake := wake w; sleeps := sleeps w;
     id_source := id_source w; id_pos := id_pos w;
     spans := l; stdout := stdout w; resp := resp w |}.

Definition set_stdout (l : list Slog.LogRecord) (w : World) : World :=
  {| now := now w; wake := wake w; sleeps := sleeps w;
     id_source := id_source w; id_pos := id_pos w;
     spans := spans w; stdout := l; resp := resp w |}.

Definition set_resp (r : Http.ResponseWriter) (w : World) : World :=
  {| now := now w; wake := wake w; sleeps := sleeps w;
     id_source := id_source w; id_pos := id_pos w;
     spans := spans w; stdout := stdout w; resp := r |}.

(** The state monad of the handlers. *)
Definition M (A : Type) : Type := World -> A * World.

Definition ret {A} (a : A) : M A := fun w => (a, w).

Definition bind {A B} (c : M A) (k : A -> M B) : M B :=
  fun w => let (a, w') := c w in k a w'.

Definition exec {A} (c : M A) (w : World) : World := snd (c w).
Definition eval {A} (c : M A) (w : World) : A := fst (c w).

End Proc.

Notation "'let*' x ':=' c 'in' k" := (Proc.bind c (fun x => k))
  (at level 10, x name, c at level 100, k at level 200).
Notation "'let*' ' p ':=' c 'in' k" := (Proc.bind c (fun x => match x with p => k end))
  (at level 10, p pattern, c at level 100, k at level 200).
Notation "c1 ';;;' c2" := (Proc.bind c1 (fun _ => c2))
  (at level 100, c2 at level 200, right associativity).

Module Eff.
Import Proc.

(** [time.Sleep(d)]: a zero or negative duration returns at once;
    otherwise the goroutine runs again when the scheduler wakes it. *)
Definition wake_time (w : World) (d : Time.Duration) : Z :=
  if (d <=? 0)%Z then now w else wake w (now w) d.

Definition Sleep (d : Time.Duration) : M unit :=
  fun w => (tt, set_clock (wake_time w d) (sleeps w ++ [d]) w).

(** The identifier generator of the SDK: [NewIDs] returns a trace
    identifier and a span identifier, [NewSpanID] a span identifier. *)
Definition NewIDs : M (Trace.TraceID * Trace.SpanID) :=
  fun w =>
    ((Trace.TraceID_of (id_source w (id_pos w)),
      Trace.SpanID_of (id_source w (S (id_pos w)))),
     set_id_pos (S (S (id_pos w))) w).

Definition NewSpanID : M Trace.SpanID :=
  fun w => (Trace.SpanID_of (id_source w (id_pos w)), set_id_pos (S (id_pos w)) w).

(** [Tracer.Start(ctx, name)] of the SDK: the span continues the trace
    of the span found in [ctx] when that one has a valid trace
    identifier, and starts a new trace otherwise; it always gets a new
    span identifier. The returned context carries the new span. *)
Definition Tracer_Start (ctx : Trace.Context) (name : string)
  : M (Trace.Context * Trace.Span) :=
  let psc := Trace.SpanContextFromContext ctx in
  let* '(tid, sid) :=
    (if Trace.TraceID_IsValid (Trace.sc_TraceID psc)
     then let* sid := NewSpanID in ret (Trace.sc_TraceID psc, sid)
     else NewIDs) in
  fun w =>
    let s := {| Trace.span_name := name;
                Trace.span_context := {| Trace.sc_TraceID := tid; Trace.sc_SpanID := sid |};
                Trace.span_parent := psc;
                Trace.span_start := now w;
                Trace.span_end := None |} in
    ((Trace.ContextWithSpan ctx s, s), w).

(** [span.End()]: stamps the end time and hands the span to the span
    processor. *)
Definition Span_End (s : Trace.Span) : M unit :=
  fun w =>
    let s' := {| Trace.span_name := Trace.span_name s;
                 Trace.span_context := Trace.span_context s;
                 Trace.span_parent := Trace.span_parent s;
                 Trace.span_start := Trace.span_start s;
                 Trace.span_end := Some (now w) |} in
    (tt, set_spans (spans w ++ [s']) w).

(** [Logger.log]: when the handler enables the level, one record with
    the current time, the logger's attributes and the call's. *)
Definition Logger_log (l : Slog.Logger) (lv : Slog.Level) (msg : string)
           (args : list Slog.any) : M unit :=
  fun w =>
    if Slog.Enabled l lv
    then (tt, set_stdout
                (stdout w ++
                 [ {| Slog.rec_time := now w; Slog.rec_level := lv; Slog.rec_msg := msg;
                      Slog.rec_attrs := Slog.lg_attrs l ++ Slog.argsToAttrSlice args |} ])
                w)
    else (tt, w).

Definition Logger_Info (l : Slog.Logger) := Logger_log l Slog.LevelInfo.
Definition Logger_Error (l : Slog.Logger) := Logger_log l Slog.LevelError.

(** The response writer of the request being served. *)
Definition w_WriteHeader (code : Z) : M unit :=
  fun w => (tt, set_resp (Http.WriteHeader code (resp w)) w).

Definition w_Write (b : string) : M unit :=
  fun w => (tt, set_resp (Http.Write b (resp w)) w).

Definition http_Error (msg : string) (code : Z) : M unit :=
  fun w => (tt, set_resp (Http.Error msg code (resp w)) w).

End Eff.

(* ===================================================================== *)
(** * Handlers, otelhttp and the server *)
(* ===================================================================== *)

Module Server.
Import Proc.

(** A request as a handler receives it: the path and the context. *)
Record Request := {
  req : Http.Request;
  req_Context : Trace.Context
}.

Definition WithContext (r : Request) (ctx : Trace.Context) : Request :=
  {| req := req r; req_Context := ctx |}.

(** [http.HandlerFunc]; the draws are those of the request. *)
Definition Handler := Rand.Draws -> Request -> M unit.

(** [otelhttp.NewHandler(handler, operation)]: starts a span named
    after the operation from the request's context, runs the handler
    with the context that carries it, and ends it when the handler
    returns. *)
Definition otelhttp_NewHandler (handler : Handler) (operation : string) : Handler :=
  fun d r =>
    let* '(ctx, span) := Eff.Tracer_Start (req_Context r) operation in
    handler d (WithContext r ctx) ;;;
    Eff.Span_End span.

(** [http.NotFound] *)
Definition NotFoundHandler : Handler :=
  fun _ _ => Eff.http_Error "404 page not found" Http.StatusNotFound.

(** The patterns registered here have no trailing slash: each matches
    its own path only. *)
Definition ServeMux := list (string * Handler).

Fixpoint ServeMux_Handler (mux : ServeMux) (path : string) : Handler :=
  match mux with
  | [] => NotFoundHandler
  | (pattern, h) :: rest =>
      if String.eqb pattern path then h else ServeMux_Handler rest path
  end.

(** The server reads a request, gives it the background context and a
    fresh response writer, runs the handler that the mux selects and
    sends what was written. *)
Definition serve (mux : ServeMux) (d : Rand.Draws) (r : Http.Request) : M Http.Response :=
  fun w =>
    let r' := {| req := r; req_Context := Trace.Background |} in
    let (_, w') := ServeMux_Handler mux (Http.URL_Path r) d r' (set_resp Http.fresh w) in
    (Http.finish (resp w'), w').

End Server.

(* ===================================================================== *)
(** * os, the OTLP exporters and the providers of the SDK *)
(* ===================================================================== *)

Module Os.

(** The environment of the process. [Getenv] returns the empty string
    for a variable that is not set. *)
Definition Getenv (env : gmap string string) (key : string) : string :=
  default EmptyString (env !! key).

End Os.

Module Otlp.

(** The part of the gRPC client configuration that the options used
    here set. *)
Record Config := {
  cfg_endpoint : string;
  cfg_insecure : bool
}.

Inductive Option_ :=
| WithInsecure
| WithEndpoint (endpoint : string).

Definition applyOption (c : Config) (o : Option_) : Config :=
  match o with
  | WithInsecure => {| cfg_endpoint := cfg_endpoint c; cfg_insecure := true |}
  | WithEndpoint e => {| cfg_endpoint := e; cfg_insecure := cfg_insecure c |}
  end.

(** The options are applied in order over the configuration that the
    library derives from its defaults and its own environment keys. *)
Definition NewConfig (base : Config) (opts : list Option_) : Config :=
  fold_left applyOption opts base.

(** An exporter over a gRPC connection: its configuration, whether it
    is started, what it has sent, and how many times its connection
    was closed. *)
Record Exporter (A : Type) := {
  exp_cfg : Config;
  exp_started : bool;
  exp_sent : list A;
  exp_conn_closes : nat
}.
Arguments exp_cfg {A} _.
Arguments exp_started {A} _.
Arguments exp_sent {A} _.
Arguments exp_conn_closes {A} _.

(** [New(ctx, opts...)]: fails with the error that the library finds in
    the configuration, if any. *)
Definition New {A} (check : Config -> option string) (base : Config)
           (opts : list Option_) : string + Exporter A :=
  let cfg := NewConfig base opts in
  match check cfg with
  | Some err => inl err
  | None => inr {| exp_cfg := cfg; exp_started := true;
                   exp_sent := []; exp_conn_closes := 0 |}
  end.

Definition Export {A} (batch : list A) (e : Exporter A) : Exporter A :=
  if exp_started e
  then {| exp_cfg := exp_cfg e; exp_started := true;
          exp_sent := exp_sent e ++ batch;
          exp_conn_closes := exp_conn_closes e |}
  else e.

(** [Shutdown]: a started exporter stops and closes its connection;
    one that is not started returns at once. *)
Definition Shutdown {A} (e : Exporter A) : Exporter A :=
  if exp_started e
  then {| exp_cfg := exp_cfg e; exp_started := false;
          exp_sent := exp_sent e;
          exp_conn_closes := S (exp_conn_closes e) |}
  else e.

End Otlp.

Module Sdk.

(** A call either returns or panics. *)
Inductive Outcome (A : Type) :=
| Returned (a : A)
| Panicked (msg : string).
Arguments Returned {A} _.
Arguments Panicked {A} _.

Definition Resource := list (string * string).

(** [close(ch)] panics on a channel that is closed already. *)
Definition close_chan (closed : bool) : Outcome bool :=
  if closed then Panicked "close of closed channel" else Returned true.

(** The batch span processor ([sdktrace.WithBatcher]): the queue of
    ended spans not exported yet, the exporter, the [sync.Once] of
    [Shutdown] and the stop channel that [Shutdown] closes. *)
Record BatchSpanProcessor := {
  bsp_queue : list Trace.Span;
  bsp_exporter : Otlp.Exporter Trace.Span;
  bsp_stopOnce : bool;
  bsp_stopCh_closed : bool
}.

(** [Shutdown], under [stopOnce.Do]: close the stop channel, export
    what is queued, shut the exporter down. *)
Definition BatchSpanProcessor_Shutdown (b : BatchSpanProcessor)
  : Outcome BatchSpanProcessor :=
  if bsp_stopOnce b then Returned b
  else
    match close_chan (bsp_stopCh_closed b) with
    | Panicked m => Panicked m
    | Returned c =>
        Returned {| bsp_queue := [];
                    bsp_exporter := Otlp.Shutdown (Otlp.Export (bsp_queue b) (bsp_exporter b));
                    bsp_stopOnce := true;
                    bsp_stopCh_closed := c |}
    end.

Record TracerProvider := {
  tp_resource : Resource;
  tp_batcher : BatchSpanProcessor;
  tp_isShutdown : bool
}.

Definition NewTracerProvider (e : Otlp.Exporter Trace.Span) (res : Resource)
  : TracerProvider :=
  {| tp_resource := res;
     tp_batcher := {| bsp_queue := []; bsp_exporter := e;
                      bsp_stopOnce := false; bsp_stopCh_closed := false |};
     tp_isShutdown := false |}.

(** [TracerProvider.Shutdown]: returns nil at once when the provider
    is shut down already; otherwise shuts the span processor down. *)
Definition TracerProvider_Shutdown (p : TracerProvider)
  : Outcome (option string * TracerProvider) :=
  if tp_isShutdown p then Returned (None, p)
  else
    match BatchSpanProcessor_Shutdown (tp_batcher p) with
    | Panicked m => Panicked m
    | Returned b =>
        Returned (None, {| tp_resource := tp_resource p; tp_batcher := b;
                           tp_isShutdown := true |})
    end.

(** A metric data point, as far as the pipeline moves it. *)
Record Metric := { metric_name : string; metric_value : Z }.

(** The periodic reader ([sdkmetric.NewPeriodicReader]): the exporter,
    the points collected and not exported yet, and the [sync.Once] of
    [Shutdown]. *)
Record PeriodicReader := {
  pr_exporter : Otlp.Exporter Metric;
  pr_pending : list Metric;
  pr_shutdownOnce : bool
}.

Definition ErrReaderShutdown : string := "reader is shutdown".

(** [Shutdown]: under [shutdownOnce.Do], export what is pending and
    shut the exporter down; any later call returns
    [ErrReaderShutdown]. *)
Definition PeriodicReader_Shutdown (r : PeriodicReader)
  : option string * PeriodicReader :=
  if pr_shutdownOnce r then (Some ErrReaderShutdown, r)
  else (None, {| pr_exporter := Otlp.Shutdown (Otlp.Export (pr_pending r) (pr_exporter r));
                 pr_pending := [];
                 pr_shutdownOnce := true |}).

Record MeterProvider := {
  mp_resource : Resource;
  mp_reader : PeriodicReader
}.

Definition NewMeterProvider (e : Otlp.Exporter Metric) (res : Resource)
  : MeterProvider :=
  {| mp_resource := res;
     mp_reader := {| pr_exporter := e; pr_pending := []; pr_shutdownOnce := false |} |}.

Definition MeterProvider_Shutdown (p : MeterProvider)
  : Outcome (option string * MeterProvider) :=
  let (err, r) := PeriodicReader_Shutdown (mp_reader p) in
  Returned (err, {| mp_resource := mp_resource p; mp_reader := r |}).

(** The providers registered process-wide by [otel.SetTracerProvider]
    and [otel.SetMeterProvider]. *)
Record Telemetry := {
  tracerProvider : TracerProvider;
  meterProvider : MeterProvider
}.

(** What the pipeline does between start-up and shutdown: a span ends
    and enters the batcher's queue unless the processor is stopped,
    the batcher exports its queue, the reader collects a point, the
    reader exports what it collected. *)
Definition enqueue (s : Trace.Span) (t : Telemetry) : Telemetry :=
  let p := tracerProvider t in
  let b := tp_batcher p in
  if bsp_stopOnce b then t
  else {| tracerProvider :=
            {| tp_resource := tp_resource p;
               tp_batcher := {| bsp_queue := bsp_queue b ++ [s];
                                bsp_exporter := bsp_exporter b;
                                bsp_stopOnce := bsp_stopOnce b;
                                bsp_stopCh_closed := bsp_stopCh_closed b |};
               tp_isShutdown := tp_isShutdown p |};
          meterProvider := meterProvider t |}.

Definition trace_exporter (t : Telemetry) : Otlp.Exporter Trace.Span :=
  bsp_exporter (tp_batcher (tracerProvider t)).

Definition metric_exporter (t : Telemetry) : Otlp.Exporter Metric :=
  pr_exporter (mp_reader (meterProvider t)).

Definition collect (m : Metric) (t : Telemetry) : Telemetry :=
  let p := meterProvider t in
  let r := mp_reader p in
  if pr_shutdownOnce r then t
  else {| tracerProvider := tracerProvider t;
          meterProvider :=
            {| mp_resource := mp_resource p;
               mp_reader := {| pr_exporter := pr_exporter r;
                               pr_pending := pr_pending r ++ [m];
                               pr_shutdownOnce := pr_shutdownOnce r |} |} |}.

(** The two conditions of the pipeline: [live], as start-up leaves it,
    with both exporters started and nothing closed; [down], after a
    shutdown, with every guard set, both connections closed once and
    nothing left to export. *)
Definition live (t : Telemetry) : Prop :=
  let p := tracerProvider t in
  let b := tp_batcher p in
  let r := mp_reader (meterProvider t) in
  tp_isShutdown p = false /\
  bsp_stopOnce b = false /\
  bsp_stopCh_closed b = false /\
  Otlp.exp_started (bsp_exporter b) = true /\
  Otlp.exp_conn_closes (bsp_exporter b) = 0%nat /\
  pr_shutdownOnce r = false /\
  Otlp.exp_started (pr_exporter r) = true /\
  Otlp.exp_conn_closes (pr_exporter r) = 0%nat.

Definition down (t : Telemetry) : Prop :=
  let p := tracerProvider t in
  let b := tp_batcher p in
  let r := mp_reader (meterProvider t) in
  tp_isShutdown p = true /\
  bsp_stopOnce b = true /\
  bsp_stopCh_closed b = true /\
  bsp_queue b = [] /\
  Otlp.exp_started (bsp_exporter b) = false /\
  Otlp.exp_conn_closes (bsp_exporter b) = 1%nat /\
  pr_shutdownOnce r = true /\
  pr_pending r = [] /\
  Otlp.exp_started (pr_exporter r) = false /\
  Otlp.exp_conn_closes (pr_exporter r) = 1%nat.

End Sdk.

(* ===================================================================== *)
(** * app/main.go *)
(* ===================================================================== *)

Module App.
Import Proc.

(** [var logger *slog.Logger = slog.New(slog.NewJSONHandler(os.Stdout, nil))] *)
Definition logger : Slog.Logger := Slog.New_JSONHandler_nil.

(** ** initOTel *)

(** What the libraries decide at start-up: whether building the
    resource fails, the client configuration before the options are
    applied, and the error, if any, that each exporter constructor
    finds in its configuration. *)
Record Lib := {
  resource_New_err : option string;
  base_config : Otlp.Config;
  otlptracegrpc_New_err : Otlp.Config -> option string;
  otlpmetricgrpc_New_err : Otlp.Config -> option string
}.

(** [resource.New(ctx, resource.WithAttributes(...))] *)
Definition resource_New (lib : Lib) (attrs : list (string * string))
  : string + Sdk.Resource :=
  match resource_New_err lib with
  | Some err => inl err
  | None => inr attrs
  end.

(** [initOTel] either ends the process through [log.Fatalf] or leaves
    the two providers registered; the closure it returns is [shutdown]
    below, over the providers it captures. *)
Inductive Startup :=
| Fatalf (msg : string)
| Started (t : Sdk.Telemetry).

Definition initOTel (lib : Lib) (env : gmap string string) : Startup :=
  match resource_New lib [("service.name", "sample-app");
                          ("service.version", "1.0.0")] with
  | inl err => Fatalf (String.append "failed to create resource: " err)
  | inr res =>
      let otelEndpoint := Os.Getenv env "OTEL_EXPORTER_OTLP_ENDPOINT" in
      let otelEndpoint :=
        if String.eqb otelEndpoint EmptyString
        then "otel-collector:4317" else otelEndpoint in
      match Otlp.New (otlptracegrpc_New_err lib) (base_config lib)
                     [Otlp.WithInsecure; Otlp.WithEndpoint otelEndpoint] with
      | inl err => Fatalf (String.append "failed to create trace exporter: " err)
      | inr traceExporter =>
          let tracerProvider := Sdk.NewTracerProvider traceExporter res in
          match Otlp.New (otlpmetricgrpc_New_err lib) (base_config lib)
                         [Otlp.WithInsecure; Otlp.WithEndpoint otelEndpoint] with
          | inl err => Fatalf (String.append "failed to create metric exporter: " err)
          | inr metricExporter =>
              let meterProvider := Sdk.NewMeterProvider metricExporter res in
              Started {| Sdk.tracerProvider := tracerProvider;
                         Sdk.meterProvider := meterProvider |}
          end
      end
  end.

(** The cleanup function: both [Shutdown] calls, their results
    dropped. *)
Definition shutdown (t : Sdk.Telemetry) : Sdk.Outcome Sdk.Telemetry :=
  match Sdk.TracerProvider_Shutdown (Sdk.tracerProvider t) with
  | Sdk.Panicked m => Sdk.Panicked m
  | Sdk.Returned (_, tp) =>
      match Sdk.MeterProvider_Shutdown (Sdk.meterProvider t) with
      | Sdk.Panicked m => Sdk.Panicked m
      | Sdk.Returned (_, mp) =>
          Sdk.Returned {| Sdk.tracerProvider := tp; Sdk.meterProvider := mp |}
      end
  end.

(** The states of the providers that the process can be in after
    start-up left them in [t0]. *)
Inductive reachable (t0 : Sdk.Telemetry) : Sdk.Telemetry -> Prop :=
| reach_start : reachable t0 t0
| reach_enqueue s t : reachable t0 t -> reachable t0 (Sdk.enqueue s t)
| reach_collect m t : reachable t0 t -> reachable t0 (Sdk.collect m t)
| reach_shutdown t t' :
    reachable t0 t -> shutdown t = Sdk.Returned t' -> reachable t0 t'.

(** ** The handlers *)

Definition healthzHandler : Server.Handler :=
  fun _ r =>
    Eff.w_WriteHeader Http.StatusOK ;;;
    Eff.w_Write "OK".

Definition workHandler : Server.Handler :=
  fun d r =>
    let ctx := Server.req_Context r in
    let span := Trace.SpanFromContext ctx in

    let traceID := Trace.TraceID_String (Trace.sc_TraceID (Trace.SpanContextOf span)) in
    let log := Slog.With logger
                 [ Slog.a_string "trace_id"; Slog.a_string traceID;
                   Slog.a_string "span_id";
                   Slog.a_string (Trace.SpanID_String
                                    (Trace.sc_SpanID (Trace.SpanContextOf span))) ] in

    let* '(_, childSpan) := Eff.Tracer_Start ctx "simulate_work" in
    let latency := Int64.mul (Time.of_int (Rand.Intn (Rand.latency_src d) 400))
                             Time.Millisecond in
    Eff.Sleep latency ;;;
    Eff.Span_End childSpan ;;;

    let* '(_, cacheSpan) := Eff.Tracer_Start ctx "db_cache_lookup" in
    Eff.Sleep (Int64.mul (Time.of_int (Rand.Intn (Rand.cache_src d) 200))
                         Time.Millisecond) ;;;
    Eff.Span_End cacheSpan ;;;

    if Float32.ltb (Rand.outcome_draw d) Float32.c_0_2 then
      Eff.Logger_Error log "request failed"
        [ Slog.a_string "latency_ms"; Slog.a_int64 (Time.Milliseconds latency);
          Slog.a_string "status"; Slog.a_int 500 ] ;;;
      Eff.http_Error "Internal Server Error" Http.StatusInternalServerError
    else
      Eff.Logger_Info log "request succeeded"
        [ Slog.a_string "latency_ms"; Slog.a_int64 (Time.Milliseconds latency);
          Slog.a_string "status"; Slog.a_int 200 ] ;;;
      Eff.w_Write (String.append "Work completed" Http.LF).

(** The routes that [main] registers on the default mux. *)
Definition mux : Server.ServeMux :=
  [ ("/healthz", Server.otelhttp_NewHandler healthzHandler "healthz");
    ("/work", Server.otelhttp_NewHandler workHandler "work") ].

Definition serve (d : Rand.Draws) (path : string) : M Http.Response :=
  Server.serve mux d {| Http.URL_Path := path |}.

(** A run of the server over a sequence of requests, one after the
    other. *)
Fixpoint serve_all (reqs : list (Rand.Draws * string)) : M (list Http.Response) :=
  match reqs with
  | [] => ret []
  | (d, path) :: rest =>
      let* r := serve d path in
      let* rs := serve_all rest in
      ret (r :: rs)
  end.

End App.

(* ===================================================================== *)
(** * What one request adds to the world *)
(* ===================================================================== *)

Module Obs.
Import Proc.

(** The spans ended, the records logged and the sleeps asked for
    between the world [w] and a later world [w']. *)
Definition new_spans (w w' : World) : list Trace.Span :=
  skipn (List.length (spans w)) (spans w').

Definition new_logs (w w' : World) : list Slog.LogRecord :=
  skipn (List.length (stdout w)) (stdout w').

Definition new_sleeps (w w' : World) : list Time.Duration :=
  skipn (List.length (sleeps w)) (sleeps w').

(** The identifiers that the generator hands out next in [w]: those of
    a new root span, and the [k]-th value after them as a span
    identifier. *)
Definition next_TraceID (w : World) : Trace.TraceID :=
  Trace.TraceID_of (id_source w (id_pos w)).

Definition next_SpanID (w : World) : Trace.SpanID :=
  Trace.SpanID_of (id_source w (S (id_pos w))).

Definition later_SpanID (w : World) (k : nat) : Trace.SpanID :=
  Trace.SpanID_of (id_source w (S (S k) + id_pos w)).

(** The code path of a request, without the values that flow along
    it: the response, the names of the spans in the order they ended,
    and level, message and attribute keys of each record. *)
Definition log_shape (r : Slog.LogRecord) : Slog.Level * string * list string :=
  (Slog.rec_level r, Slog.rec_msg r, map Slog.Key (Slog.rec_attrs r)).

Definition shape (w : World) (res : Http.Response * World)
  : Http.Response * list string * list (Slog.Level * string * list string) * nat :=
  (fst res,
   map Trace.span_name (new_spans w (snd res)),
   map log_shape (new_logs w (snd res)),
   List.length (new_sleeps w (snd res))).

(** The two responses of /work. *)
Definition response_500 : Http.Response :=
  {| Http.resp_status := 500;
     Http.resp_body := String.append "Internal Server Error" Http.LF |}.

Definition response_200 : Http.Response :=
  {| Http.resp_status := 200;
     Http.resp_body := String.append "Work completed" Http.LF |}.

End Obs.

(* ===================================================================== *)
(** * Sample inputs *)
(* ===================================================================== *)

Module Sample.
Import Proc.

(** A world at time 1000 ns with an exact scheduler and an identifier
    source that counts up from 10. *)
Definition world : World :=
  {| now := 1000; wake := fun t d => t + d; sleeps := [];
     id_source := fun k => Z.of_nat k + 10; id_pos := 0;
     spans := []; stdout := []; resp := Http.fresh |}.

(** Latency 50 ms and the largest float32 below [0.2] as outcome. *)
Definition failing : Rand.Draws :=
  {| Rand.latency_src := 1250; Rand.cache_src := 7;
     Rand.outcome_draw := S754_finite false 13421772 (-26) |}.

(** Latency 0 ms and the outcome draw 0.5. *)
Definition passing : Rand.Draws :=
  {| Rand.latency_src := 0; Rand.cache_src := 199;
     Rand.outcome_draw := S754_finite false 8388608 (-24) |}.

(** Libraries that report no error, over the client's defaults. *)
Definition lib : App.Lib :=
  {| App.resource_New_err := None;
     App.base_config := {| Otlp.cfg_endpoint := "localhost:4317";
                           Otlp.cfg_insecure := false |};
     App.otlptracegrpc_New_err := fun _ => None;
     App.otlpmetricgrpc_New_err := fun _ => None |}.

(** An ended span and a metric point waiting in the pipeline. *)
Definition span : Trace.Span :=
  {| Trace.span_name := "work";
     Trace.span_context := {| Trace.sc_TraceID := 10; Trace.sc_SpanID := 11 |};
     Trace.span_parent := Trace.emptySpanContext;
     Trace.span_start := 1000; Trace.span_end := Some 2000 |}.

Definition metric : Sdk.Metric :=
  {| Sdk.metric_name := "http.server.duration"; Sdk.metric_value := 1 |}.

Definition env_unset : gmap string string := ∅.

Definition env_set : gmap string string :=
  {[ "OTEL_EXPORTER_OTLP_ENDPOINT" := "collector.internal:4317" ]}.

(** The providers that [initOTel] registers with these libraries and
    no endpoint in the environment. *)
Definition telemetry : Sdk.Telemetry :=
  let cfg := {| Otlp.cfg_endpoint := "otel-collector:4317"; Otlp.cfg_insecure := true |} in
  let res := [("service.name", "sample-app"); ("service.version", "1.0.0")] in
  {| Sdk.tracerProvider :=
       Sdk.NewTracerProvider
         {| Otlp.exp_cfg := cfg; Otlp.exp_started := true;
            Otlp.exp_sent := []; Otlp.exp_conn_closes := 0 |} res;
     Sdk.meterProvider :=
       Sdk.NewMeterProvider
         {| Otlp.exp_cfg := cfg; Otlp.exp_started := true;
            Otlp.exp_sent := []; Otlp.exp_conn_closes := 0 |} res |}.

End Sample.

(* ===================================================================== *)
(** * Observations on whole runs *)
(* ===================================================================== *)

Module Run.
Import Proc.

(** The value that the log record of a request to /work carries under
    the key [k]. *)
Definition logged (k : string) (d : Rand.Draws) (w : World) : option Slog.Value :=
  match Obs.new_logs w (exec (App.serve d "/work") w) with
  | [rec] => Slog.lookup k (Slog.rec_attrs rec)
  | _ => None
  end.

(** What a log record says, apart from when it was written. *)
Definition log_content (r : Slog.LogRecord) : Slog.Level * string * list Slog.Attr :=
  (Slog.rec_level r, Slog.rec_msg r, Slog.rec_attrs r).

(** A lower-case hexadecimal digit. *)
Definition is_hex_digit (c : ascii) : bool :=
  let n := nat_of_ascii c in
  ((48 <=? n)%nat && (n <=? 57)%nat) || ((97 <=? n)%nat && (n <=? 102)%nat).

Fixpoint string_forallb (p : ascii -> bool) (s : string) : bool :=
  match s with
  | EmptyString => true
  | String c rest => p c && string_forallb p rest
  end.


(** The number of requests of a run that go to [path]. *)
Definition requests_to (path : string) (reqs : list (Rand.Draws * string)) : nat :=
  List.length (filter (fun r => String.eqb (snd r) path) reqs).

End Run.

(* ===================================================================== *)
(** * main *)
(* ===================================================================== *)

Module Main.
Import Proc.

(** How a function body ends: it returns, it panics, or the process
    exits through [os.Exit]. *)
Inductive Ending :=
| Returns
| Panics (msg : string)
| Exits (code : Z).

(** What [main] works on: the providers once [initOTel] has registered
    them, the world of the requests, and the lines of the standard
    logger. *)
Record Process := {
  telemetry : option Sdk.Telemetry;
  world : World;
  log_lines : list string
}.



(** A function with one deferred call: the call runs when the body
    returns or panics, and does not run when the process exits. *)
Definition with_defer (deferred : Process -> Ending * Process)
           (body : Process -> Ending * Process) (p : Process) : Ending * Process :=
  match body p with
  | (Exits code, p') => (Exits code, p')
  | (Returns, p') => deferred p'
  | (Panics msg, p') =>
      match deferred p' with
      | (Exits code, p'') => (Exits code, p'')
      | (_, p'') => (Panics msg, p'')
      end
  end.

(** The deferred [shutdown(ctx)]. *)
Definition deferred_shutdown (p : Process) : Ending * Process :=
  match telemetry p with
  | None => (Returns, p)
  | Some t =>
      match App.shutdown t with
      | Sdk.Panicked msg => (Panics msg, p)
      | Sdk.Returned t' =>
          (Returns, {| telemetry := Some t'; world := world p;
                       log_lines := log_lines p |})
      end
  end.



End Main.

(* ===================================================================== *)
(** * Properties *)
(* ===================================================================== *)

(** ** Lists *)

Lemma skipn_length_app {A} (l x : list A) : skipn (List.length l) (l ++ x) = x.
Proof. induction l as [| a l IH]; [reflexivity | exact IH]. Qed.

Lemma skipn_length_same {A} (l : list A) : skipn (List.length l) l = [].
Proof. induction l as [| a l IH]; [reflexivity | exact IH]. Qed.

(** ** float32: the comparison with the constant 0.2 *)

Section Float32Facts.
Import Float32.

Lemma digits2_pos_bounds (m : positive) :
  2 ^ (Zpos (digits2_pos m) - 1) <= Zpos m < 2 ^ Zpos (digits2_pos m).
Proof.
  induction m as [p IH | p IH |]; cbn [digits2_pos].
  - rewrite Pos2Z.inj_succ.
    replace (Z.succ (Zpos (digits2_pos p)) - 1)
      with (Z.succ (Zpos (digits2_pos p) - 1)) by lia.
    rewrite !Z.pow_succ_r by lia. lia.
  - rewrite Pos2Z.inj_succ.
    replace (Z.succ (Zpos (digits2_pos p)) - 1)
      with (Z.succ (Zpos (digits2_pos p) - 1)) by lia.
    rewrite !Z.pow_succ_r by lia. lia.
  - cbn. lia.
Qed.

(** A canonical mantissa has at most 24 bits, and exactly 24 above
    the subnormal exponent. *)
Lemma canonical_cases (m : positive) (e : Z) :
  canonical_mantissa prec emax m e = true ->
  Zpos m < 2 ^ 24 /\ (-149 <= e) /\ (-149 < e -> 2 ^ 23 <= Zpos m).
Proof.
  unfold canonical_mantissa, fexp, SpecFloat.emin, prec, emax.
  intros H. apply Z.eqb_eq in H.
  pose proof (digits2_pos_bounds m) as [Hlo Hhi].
  set (n := Zpos (digits2_pos m)) in *.
  assert (Hn : 0 < n) by (unfold n; lia).
  split; [| split].
  - assert (n <= 24) by lia.
    apply Z.lt_le_trans with (2 ^ n); [exact Hhi |].
    apply Z.pow_le_mono_r; lia.
  - lia.
  - intros He. assert (n = 24) by lia.
    replace 23 with (n - 1) by lia. exact Hlo.
Qed.

(** Two positive finite floats compare by exponent, then by mantissa. *)
Lemma ltb_pos_finite (m1 m2 : positive) (e1 e2 : Z) :
  ltb (S754_finite false m1 e1) (S754_finite false m2 e2) =
  match (e1 ?= e2)%Z with
  | Lt => true
  | Gt => false
  | Eq => (m1 <? m2)%positive
  end.
Proof.
  unfold ltb, SFltb, SFcompare, Pos.ltb, Pos.compare.
  destruct (e1 ?= e2)%Z; reflexivity.
Qed.

(** At the exponent of the constant, a mantissa [k] with 5 k = 2^26 + 1
    separates the values below one fifth from the others. The mantissa
    stays a variable here: comparing with a literal would unfold the
    comparison along its 24 bits. *)
Lemma ltb_at_exponent_of_fifth (m k : positive) :
  5 * Zpos k = 67108865 ->
  ltb (S754_finite false m (-26)) (S754_finite false k (-26)) = true <->
  (to_Q (S754_finite false m (-26)) < 1 # 5)%Q.
Proof.
  intros Hk. rewrite ltb_pos_finite. rewrite Z.compare_refl.
  etransitivity; [apply Pos.ltb_lt |].
  cbn [to_Q]. unfold Qlt. cbn [Qnum Qden].
  change (Zpos (2 ^ 26)) with 67108864.
  lia.
Qed.

(** No float32 lies in [1/5, float32(0.2)): on the values that
    [rand.Float32] returns, comparing with the float32 constant is
    comparing with one fifth. *)
Lemma ltb_c_0_2_iff (x : float32) :
  unit_interval x -> (ltb x c_0_2 = true <-> (to_Q x < 1 # 5)%Q).
Proof.
  intros (Hv & Hf & H0 & H1).
  destruct x as [s | s | | s m e]; try discriminate.
  - split; intros _; reflexivity.
  - destruct s.
    + exfalso. revert H0. cbn [to_Q]. destruct e; unfold Qle; cbn; lia.
    + cbn [valid valid_binary] in Hv. unfold bounded in Hv.
      apply andb_prop in Hv as [Hc _].
      apply canonical_cases in Hc as (Hm & He & Hn).
      unfold c_0_2.
      destruct (Z.compare_spec e (-26)) as [Heq | Hlt | Hgt];
        [subst e; apply ltb_at_exponent_of_fifth; reflexivity | |];
        rewrite ltb_pos_finite.
      * rewrite (proj2 (Z.compare_lt_iff e (-26)) Hlt).
        split; [intros _ | reflexivity].
        destruct e as [| p | p]; try lia.
        cbn [to_Q]. unfold Qlt. cbn [Qnum Qden].
        rewrite Pos2Z.inj_pow.
        assert (2 ^ 27 <= 2 ^ Zpos p) by (apply Z.pow_le_mono_r; lia).
        lia.
      * rewrite (proj2 (Z.compare_gt_iff e (-26)) Hgt).
        split; [discriminate |]. intros H. exfalso.
        assert (Hn' : 2 ^ 23 <= Zpos m) by (apply Hn; lia).
        revert H. destruct e as [| p | p]; cbn [to_Q]; unfold Qlt; cbn [Qnum Qden].
        -- lia.
        -- lia.
        -- rewrite Pos2Z.inj_pow.
           assert (2 ^ Zpos p <= 2 ^ 25) by (apply Z.pow_le_mono_r; lia).
           lia.
Qed.

(** The constant is the correctly rounded quotient of 1 by 5. *)
Example c_0_2_is_rounded_fifth :
  SFdiv prec emax (of_Z 1) (of_Z 5) = c_0_2.
Proof. reflexivity. Qed.

End Float32Facts.

(** ** Draws and durations *)

Lemma Intn_range (v n : Z) : 0 < n -> 0 <= Rand.Intn v n < n.
Proof. intros Hn. unfold Rand.Intn. apply Z.mod_pos_bound. exact Hn. Qed.

Lemma latency_of_draw (n : Z) :
  0 <= n < 400 ->
  Int64.mul (Time.of_int n) Time.Millisecond = n * 1000000.
Proof.
  intros Hn. unfold Int64.mul, Time.of_int, Int64.wrap, Int64.modulus, Int64.half,
    Time.Millisecond, Time.Microsecond, Time.Nanosecond.
  change (2 ^ 63) with 9223372036854775808.
  change (2 ^ 64) with 18446744073709551616.
  rewrite (Z.mod_small (n + 9223372036854775808)) by lia.
  replace (n + 9223372036854775808 - 9223372036854775808) with n by lia.
  rewrite Z.mod_small by lia. lia.
Qed.

Lemma Milliseconds_of_ms (n : Z) :
  0 <= n < 400 -> Time.Milliseconds (n * 1000000) = n.
Proof.
  intros Hn. unfold Time.Milliseconds, Int64.quo, Int64.wrap, Int64.modulus, Int64.half.
  rewrite Z.quot_mul by lia.
  change (2 ^ 63) with 9223372036854775808.
  change (2 ^ 64) with 18446744073709551616.
  rewrite Z.mod_small by lia. lia.
Qed.

(** ** One request to /work, end to end *)

#[local] Arguments Trace.TraceID_of : simpl never.
#[local] Arguments Trace.SpanID_of : simpl never.
#[local] Arguments Trace.TraceID_String : simpl never.
#[local] Arguments Trace.SpanID_String : simpl never.
#[local] Arguments Int64.mul : simpl never.
#[local] Arguments Time.Milliseconds : simpl never.
#[local] Arguments Time.of_int : simpl never.
#[local] Arguments Eff.wake_time : simpl never.
#[local] Arguments Float32.ltb : simpl never.
#[local] Arguments Http.LF : simpl never.
#[local] Arguments String.append : simpl never.
#[local] Arguments Z.eqb : simpl nomatch.

Ltac unfold_pipeline :=
  unfold App.serve, Server.serve, App.mux;
  cbn [Server.ServeMux_Handler String.eqb Ascii.eqb Bool.eqb Http.URL_Path];
  unfold Server.otelhttp_NewHandler, App.workHandler, App.healthzHandler,
    Eff.Tracer_Start, Eff.NewIDs, Eff.NewSpanID, Eff.Span_End, Eff.Sleep,
    Eff.Logger_Error, Eff.Logger_Info, Eff.Logger_log, Eff.w_Write, Eff.w_WriteHeader,
    Eff.http_Error, Proc.bind, Proc.ret, Server.WithContext.

Section WorkRequest.
Import Proc.
Variables (w : World) (d : Rand.Draws).

Let T := Obs.next_TraceID w.
Let R := Obs.next_SpanID w.
Let rootctx := {| Trace.sc_TraceID := T; Trace.sc_SpanID := R |}.
Let lat := Int64.mul (Time.of_int (Rand.Intn (Rand.latency_src d) 400)) Time.Millisecond.
Let cache := Int64.mul (Time.of_int (Rand.Intn (Rand.cache_src d) 200)) Time.Millisecond.
Let t1 := Eff.wake_time w lat.
Let t2 := Eff.wake_time (set_clock t1 [] w) cache.
Let fail := Float32.ltb (Rand.outcome_draw d) Float32.c_0_2.

(** The response and the world after a request to /work, field by
    field. The contexts [c1], [c2] of the two child spans and the
    position [n] of the identifier source depend on whether the root
    trace identifier is valid. *)
Lemma serve_work_run :
  exists c1 c2 n,
    App.serve d "/work" w =
    ({| Http.resp_status := if fail then 500 else 200;
        Http.resp_body := if fail then String.append "Internal Server Error" Http.LF
                          else String.append "Work completed" Http.LF |},
     {| now := t2; wake := wake w; sleeps := sleeps w ++ [lat; cache];
        id_source := id_source w; id_pos := n;
        spans := spans w ++
          [ {| Trace.span_name := "simulate_work"; Trace.span_context := c1;
               Trace.span_parent := rootctx; Trace.span_start := now w;
               Trace.span_end := Some t1 |};
            {| Trace.span_name := "db_cache_lookup"; Trace.span_context := c2;
               Trace.span_parent := rootctx; Trace.span_start := t1;
               Trace.span_end := Some t2 |};
            {| Trace.span_name := "work"; Trace.span_context := rootctx;
               Trace.span_parent := Trace.emptySpanContext; Trace.span_start := now w;
               Trace.span_end := Some t2 |} ];
        stdout := stdout w ++
          [ {| Slog.rec_time := t2;
               Slog.rec_level := if fail then Slog.LevelError else Slog.LevelInfo;
               Slog.rec_msg := if fail then "request failed" else "request succeeded";
               Slog.rec_attrs :=
                 [ {| Slog.Key := "trace_id";
                      Slog.Val := Slog.StringValue (Trace.TraceID_String T) |};
                   {| Slog.Key := "span_id";
                      Slog.Val := Slog.StringValue (Trace.SpanID_String R) |};
                   {| Slog.Key := "latency_ms";
                      Slog.Val := Slog.Int64Value (Time.Milliseconds lat) |};
                   {| Slog.Key := "status";
                      Slog.Val := Slog.Int64Value (if fail then 500 else 200) |} ] |} ];
        resp := if fail
                then Http.Error "Internal Server Error" Http.StatusInternalServerError
                       Http.fresh
                else Http.Write (String.append "Work completed" Http.LF) Http.fresh |}) /\
    (Trace.TraceID_IsValid T = true ->
     c1 = {| Trace.sc_TraceID := T; Trace.sc_SpanID := Obs.later_SpanID w 0 |} /\
     c2 = {| Trace.sc_TraceID := T; Trace.sc_SpanID := Obs.later_SpanID w 1 |}).
Proof.
  subst T R rootctx lat cache t1 t2 fail.
  unfold Obs.next_TraceID, Obs.next_SpanID, Obs.later_SpanID.
  destruct w as [t0 wk sl src pos sp out rw].
  unfold_pipeline. unfold Trace.TraceID_IsValid. cbn.
  destruct (Trace.TraceID_of (src pos) =? 0)%Z eqn:Hv; cbn;
    destruct (Float32.ltb (Rand.outcome_draw d) Float32.c_0_2) eqn:Hf; cbn;
    unfold Eff.wake_time; cbn; rewrite <- !app_assoc; cbn;
    do 3 eexists; (split; [reflexivity | intros H; try discriminate H; split; reflexivity]).
Qed.

End WorkRequest.

(** The tactic [run_work w d] replaces the run of a /work request by the
    world of [serve_work_run] and simplifies the observations. *)
Ltac run_work w d c1 c2 n Hval :=
  let Hrun := fresh "Hrun" in
  destruct (serve_work_run w d) as (c1 & c2 & n & Hrun & Hval);
  unfold Proc.eval, Proc.exec, Obs.shape;
  rewrite ?Hrun;
  cbn [fst snd];
  unfold Obs.new_spans, Obs.new_logs, Obs.new_sleeps;
  cbn [Proc.spans Proc.stdout Proc.sleeps Proc.now Proc.id_pos];
  rewrite ?skipn_length_app.

(** The outcome draws of the samples are float32 values of [0, 1),
    the first below one fifth and the second not. *)
Lemma sample_failing_outcome :
  Float32.unit_interval (Rand.outcome_draw Sample.failing) /\
  (Float32.to_Q (Rand.outcome_draw Sample.failing) < 1 # 5)%Q.
Proof.
  unfold Float32.unit_interval. cbn. unfold Qle, Qlt. cbn. repeat split; lia.
Qed.

Lemma sample_passing_outcome :
  Float32.unit_interval (Rand.outcome_draw Sample.passing) /\
  ~ (Float32.to_Q (Rand.outcome_draw Sample.passing) < 1 # 5)%Q.
Proof.
  unfold Float32.unit_interval. cbn. unfold Qle, Qlt. cbn. repeat split; lia.
Qed.

(** C1, as stated, fails: on a failure draw the body that the client
    receives is not [Internal Server Error]; [http.Error] ends the message
    with a newline. *)
Lemma work_failure_body_counterexample :
  Float32.unit_interval (Rand.outcome_draw Sample.failing) /\
  (Float32.to_Q (Rand.outcome_draw Sample.failing) < 1 # 5)%Q /\
  Proc.eval (App.serve Sample.failing "/work") Sample.world <>
    {| Http.resp_status := 500; Http.resp_body := "Internal Server Error" |}.
Proof.
  split; [apply sample_failing_outcome |]. split; [apply sample_failing_outcome |].
  vm_compute. intros H. discriminate H.
Qed.

(** C1, amended: for every request to /work, an outcome draw below 0.20
    gives status 500 with body [Internal Server Error] followed by a
    newline, any other draw gives status 200 with body [Work completed]
    followed by a newline, and there is no third outcome. *)
Theorem work_response (w : Proc.World) (d : Rand.Draws) :
  Float32.unit_interval (Rand.outcome_draw d) ->
  let r := Proc.eval (App.serve d "/work") w in
  ((Float32.to_Q (Rand.outcome_draw d) < 1 # 5)%Q -> r = Obs.response_500) /\
  (~ (Float32.to_Q (Rand.outcome_draw d) < 1 # 5)%Q -> r = Obs.response_200) /\
  (r = Obs.response_500 \/ r = Obs.response_200).
Proof.
  intros Hu r. subst r.
  pose proof (ltb_c_0_2_iff _ Hu) as Hiff.
  run_work w d c1 c2 n Hval.
  destruct (Float32.ltb (Rand.outcome_draw d) Float32.c_0_2) eqn:Hf.
  - split; [| split].
    + intros _. reflexivity.
    + intros Hn. exfalso. apply Hn, Hiff. reflexivity.
    + left. reflexivity.
  - split; [| split].
    + intros Hlt. apply Hiff in Hlt. discriminate Hlt.
    + intros _. reflexivity.
    + right. reflexivity.
Qed.

Lemma work_response_witness :
  (Float32.unit_interval (Rand.outcome_draw Sample.failing) /\
   Proc.eval (App.serve Sample.failing "/work") Sample.world = Obs.response_500) /\
  (Float32.unit_interval (Rand.outcome_draw Sample.passing) /\
   Proc.eval (App.serve Sample.passing "/work") Sample.world = Obs.response_200).
Proof.
  split; split.
  - apply sample_failing_outcome.
  - apply (work_response Sample.world Sample.failing); apply sample_failing_outcome.
  - apply sample_passing_outcome.
  - apply (work_response Sample.world Sample.passing); apply sample_passing_outcome.
Defined.

(** C5: every request to /work writes exactly one log record; on an
    outcome draw below 0.20 it is at error level with the attributes
    latency_ms and status = 500, otherwise at info level with latency_ms
    and status = 200; its status attribute is the status code that the
    client receives. *)
Theorem work_log_record (w : Proc.World) (d : Rand.Draws) :
  Float32.unit_interval (Rand.outcome_draw d) ->
  let res := App.serve d "/work" w in
  exists rec l,
    Obs.new_logs w (snd res) = [rec] /\
    map Slog.Key (Slog.rec_attrs rec) = ["trace_id"; "span_id"; "latency_ms"; "status"] /\
    Slog.lookup "latency_ms" (Slog.rec_attrs rec) = Some (Slog.Int64Value l) /\
    ((Float32.to_Q (Rand.outcome_draw d) < 1 # 5)%Q ->
     Slog.rec_level rec = Slog.LevelError /\
     Slog.lookup "status" (Slog.rec_attrs rec) = Some (Slog.Int64Value 500)) /\
    (~ (Float32.to_Q (Rand.outcome_draw d) < 1 # 5)%Q ->
     Slog.rec_level rec = Slog.LevelInfo /\
     Slog.lookup "status" (Slog.rec_attrs rec) = Some (Slog.Int64Value 200)) /\
    Slog.lookup "status" (Slog.rec_attrs rec) =
      Some (Slog.Int64Value (Http.resp_status (fst res))).
Proof.
  intros Hu res. subst res.
  pose proof (ltb_c_0_2_iff _ Hu) as Hiff.
  run_work w d c1 c2 n Hval.
  eexists. eexists. split; [reflexivity |].
  cbn [Slog.rec_attrs Slog.rec_level map Slog.Key Http.resp_status].
  split; [reflexivity |]. split; [reflexivity |].
  destruct (Float32.ltb (Rand.outcome_draw d) Float32.c_0_2) eqn:Hf.
  - split; [| split].
    + intros _. split; reflexivity.
    + intros Hn. exfalso. apply Hn, Hiff. reflexivity.
    + reflexivity.
  - split; [| split].
    + intros Hlt. apply Hiff in Hlt. discriminate Hlt.
    + intros _. split; reflexivity.
    + reflexivity.
Qed.

Lemma work_log_record_witness :
  Float32.unit_interval (Rand.outcome_draw Sample.failing) /\
  exists rec l,
    Obs.new_logs Sample.world (snd (App.serve Sample.failing "/work" Sample.world)) = [rec] /\
    map Slog.Key (Slog.rec_attrs rec) = ["trace_id"; "span_id"; "latency_ms"; "status"] /\
    Slog.lookup "latency_ms" (Slog.rec_attrs rec) = Some (Slog.Int64Value l) /\
    Slog.rec_level rec = Slog.LevelError /\
    Slog.lookup "status" (Slog.rec_attrs rec) = Some (Slog.Int64Value 500).
Proof.
  split; [apply sample_failing_outcome |].
  destruct (work_log_record Sample.world Sample.failing)
    as (rec & l & Hlogs & Hkeys & Hlat & Hfail & _ & _).
  - apply sample_failing_outcome.
  - exists rec, l. repeat split; try assumption; apply Hfail, sample_failing_outcome.
Defined.

(** C6: the outcome of a request to /work depends on the outcome draw
    only. Two runs from the same world with the same outcome draw and any
    two pairs of latency draws give the same response and take the same
    path: the same spans in the same order, the same log level, message
    and attribute keys, the same number of sleeps. A latency draw of 0 is
    one of these values and goes the way of every other. *)
Theorem work_outcome_independent_of_latency
        (w : Proc.World) (o : Float32.float32) (l c l' c' : Z) :
  Obs.shape w (App.serve {| Rand.latency_src := l; Rand.cache_src := c;
                            Rand.outcome_draw := o |} "/work" w) =
  Obs.shape w (App.serve {| Rand.latency_src := l'; Rand.cache_src := c';
                            Rand.outcome_draw := o |} "/work" w).
Proof.
  run_work w {| Rand.latency_src := l; Rand.cache_src := c; Rand.outcome_draw := o |}
           c1 c2 n Hval.
  run_work w {| Rand.latency_src := l'; Rand.cache_src := c'; Rand.outcome_draw := o |}
           c1' c2' n' Hval'.
  cbn [Rand.outcome_draw map Trace.span_name Obs.log_shape Slog.rec_level Slog.rec_msg
       Slog.rec_attrs Slog.Key List.length].
  reflexivity.
Qed.

(** C2: the three spans that a request to /work ends (simulate_work,
    db_cache_lookup and the root span work) and its one log record carry
    one trace identifier, that of the root span, given that the
    generator hands the root span a valid (non-zero) trace identifier. *)
Theorem work_trace_id_shared (w : Proc.World) (d : Rand.Draws) :
  Trace.TraceID_IsValid (Obs.next_TraceID w) = true ->
  let w' := Proc.exec (App.serve d "/work") w in
  exists sw cl root rec,
    Obs.new_spans w w' = [sw; cl; root] /\
    Trace.span_name sw = "simulate_work" /\
    Trace.span_name cl = "db_cache_lookup" /\
    Trace.span_name root = "work" /\
    Trace.span_parent root = Trace.emptySpanContext /\
    Trace.sc_TraceID (Trace.span_context sw) = Trace.sc_TraceID (Trace.span_context root) /\
    Trace.sc_TraceID (Trace.span_context cl) = Trace.sc_TraceID (Trace.span_context root) /\
    Obs.new_logs w w' = [rec] /\
    Slog.lookup "trace_id" (Slog.rec_attrs rec) =
      Some (Slog.StringValue
              (Trace.TraceID_String (Trace.sc_TraceID (Trace.span_context root)))).
Proof.
  intros Hv w'. subst w'.
  run_work w d c1 c2 n Hval.
  destruct (Hval Hv) as [-> ->].
  do 4 eexists. repeat split.
Qed.

Lemma work_trace_id_shared_witness :
  Trace.TraceID_IsValid (Obs.next_TraceID Sample.world) = true /\
  exists sw cl root rec,
    Obs.new_spans Sample.world (Proc.exec (App.serve Sample.failing "/work") Sample.world)
      = [sw; cl; root] /\
    Trace.sc_TraceID (Trace.span_context sw) = Trace.sc_TraceID (Trace.span_context root) /\
    Trace.sc_TraceID (Trace.span_context cl) = Trace.sc_TraceID (Trace.span_context root) /\
    Obs.new_logs Sample.world (Proc.exec (App.serve Sample.failing "/work") Sample.world)
      = [rec] /\
    Slog.lookup "trace_id" (Slog.rec_attrs rec) =
      Some (Slog.StringValue
              (Trace.TraceID_String (Trace.sc_TraceID (Trace.span_context root)))).
Proof.
  split; [reflexivity |].
  destruct (work_trace_id_shared Sample.world Sample.failing)
    as (sw & cl & root & rec & Hs & _ & _ & _ & _ & Hsw & Hcl & Hl & Ht).
  - reflexivity.
  - exists sw, cl, root, rec. repeat split; assumption.
Defined.


(** The run of [Sample.failing]: 50 ms between the start and the end of
    simulate_work, and latency_ms = 50. *)
Example sample_run_latency :
  let w' := Proc.exec (App.serve Sample.failing "/work") Sample.world in
  exists sw rest rec,
    Obs.new_spans Sample.world w' = sw :: rest /\
    Trace.span_start sw = 1000 /\
    Trace.span_end sw = Some 50001000 /\
    Obs.new_logs Sample.world w' = [rec] /\
    Slog.lookup "latency_ms" (Slog.rec_attrs rec) = Some (Slog.Int64Value 50).
Proof. vm_compute. do 3 eexists. repeat split. Qed.

(** C9: the two sleeps of a request to /work are whole numbers of
    milliseconds, [rand.Intn(400)] of them for the latency and
    [rand.Intn(200)] for the cache lookup, so 0 to 399 ms and 0 to 199 ms;
    the logged latency_ms is the first of these numbers, an integer
    between 0 and 399. *)
Theorem work_latency_whole_milliseconds (w : Proc.World) (d : Rand.Draws) :
  let w' := Proc.exec (App.serve d "/work") w in
  let n := Rand.Intn (Rand.latency_src d) 400 in
  let m := Rand.Intn (Rand.cache_src d) 200 in
  exists rec,
    0 <= n <= 399 /\
    0 <= m <= 199 /\
    Obs.new_sleeps w w' = [n * Time.Millisecond; m * Time.Millisecond] /\
    Forall (fun s => s mod Time.Millisecond = 0) (Obs.new_sleeps w w') /\
    Obs.new_logs w w' = [rec] /\
    Slog.lookup "latency_ms" (Slog.rec_attrs rec) = Some (Slog.Int64Value n).
Proof.
  intros w' n m. subst w'.
  assert (Hn : 0 <= n < 400) by (apply Intn_range; lia).
  assert (Hm : 0 <= m < 200) by (apply Intn_range; lia).
  assert (Hm' : 0 <= m < 400) by lia.
  run_work w d c1 c2 k Hval.
  fold n m.
  rewrite (latency_of_draw _ Hn), (latency_of_draw _ Hm').
  rewrite (Milliseconds_of_ms _ Hn).
  change Time.Millisecond with 1000000.
  eexists. split; [lia |]. split; [lia |]. split; [reflexivity |]. split.
  - repeat constructor; apply Z.mod_mul; lia.
  - split; reflexivity.
Qed.

(** ** Identifiers as hexadecimal strings *)

Lemma hex_digit_inj (a b : Z) :
  0 <= a < 16 -> 0 <= b < 16 -> Hex.digit a = Hex.digit b -> a = b.
Proof.
  intros Ha Hb.
  assert (Ea : a = 0 \/ a = 1 \/ a = 2 \/ a = 3 \/ a = 4 \/ a = 5 \/ a = 6 \/ a = 7 \/
               a = 8 \/ a = 9 \/ a = 10 \/ a = 11 \/ a = 12 \/ a = 13 \/ a = 14 \/ a = 15)
    by lia.
  assert (Eb : b = 0 \/ b = 1 \/ b = 2 \/ b = 3 \/ b = 4 \/ b = 5 \/ b = 6 \/ b = 7 \/
               b = 8 \/ b = 9 \/ b = 10 \/ b = 11 \/ b = 12 \/ b = 13 \/ b = 14 \/ b = 15)
    by lia.
  repeat (destruct Ea as [-> | Ea]); try subst a;
    repeat (destruct Eb as [-> | Eb]); try subst b;
    cbn; intros H; first [reflexivity | discriminate H].
Qed.

Lemma hex_encode_acc_length (n : nat) (z : Z) (acc : string) :
  String.length (Hex.encode_acc n z acc) = (n + String.length acc)%nat.
Proof.
  revert z acc. induction n as [| n IH]; intros z acc; cbn [Hex.encode_acc].
  - reflexivity.
  - rewrite IH. cbn [String.length]. lia.
Qed.

Lemma hex_encode_acc_inj (n : nat) :
  forall (a b : Z) (acc acc' : string),
    0 <= a < 16 ^ Z.of_nat n -> 0 <= b < 16 ^ Z.of_nat n ->
    String.length acc = String.length acc' ->
    Hex.encode_acc n a acc = Hex.encode_acc n b acc' ->
    a = b /\ acc = acc'.
Proof.
  induction n as [| n IH]; intros a b acc acc' Ha Hb Hlen H.
  - cbn in Ha, Hb, H. split; [lia | exact H].
  - cbn [Hex.encode_acc] in H.
    rewrite Nat2Z.inj_succ, Z.pow_succ_r in Ha, Hb by lia.
    assert (Ha' : 0 <= a / 16 < 16 ^ Z.of_nat n)
      by (split; [apply Z.div_pos; lia | apply Z.div_lt_upper_bound; lia]).
    assert (Hb' : 0 <= b / 16 < 16 ^ Z.of_nat n)
      by (split; [apply Z.div_pos; lia | apply Z.div_lt_upper_bound; lia]).
    assert (Hlen' : String.length (String (Hex.digit (a mod 16)) acc) =
                    String.length (String (Hex.digit (b mod 16)) acc'))
      by (cbn [String.length]; lia).
    destruct (IH _ _ _ _ Ha' Hb' Hlen' H) as [Hq Hs].
    injection Hs as Hd Hacc.
    apply hex_digit_inj in Hd; try (apply Z.mod_pos_bound; lia).
    split; [| exact Hacc].
    rewrite (Z.div_mod a 16), (Z.div_mod b 16) by lia. lia.
Qed.

Lemma SpanID_String_inj (a b : Z) :
  Trace.SpanID_String (Trace.SpanID_of a) = Trace.SpanID_String (Trace.SpanID_of b) ->
  Trace.SpanID_of a = Trace.SpanID_of b.
Proof.
  unfold Trace.SpanID_String, Hex.EncodeToString, Trace.SpanID_of. intros H.
  apply (hex_encode_acc_inj (2 * 8)) in H; [apply H | | | reflexivity].
  - change (16 ^ Z.of_nat (2 * 8)) with (2 ^ 64). apply Z.mod_pos_bound. lia.
  - change (16 ^ Z.of_nat (2 * 8)) with (2 ^ 64). apply Z.mod_pos_bound. lia.
Qed.


Lemma StringValue_inj (a b : string) :
  Slog.StringValue a = Slog.StringValue b -> a = b.
Proof.
  intros H.
  exact (f_equal (fun v => match v with
                           | Slog.StringValue s => s
                           | Slog.Int64Value _ => a
                           end) H).
Qed.



(** ** /healthz *)

(** A request to /healthz from any world: the response, and the world
    afterwards. *)
Lemma serve_healthz_run (w : Proc.World) (d : Rand.Draws) :
  App.serve d "/healthz" w =
  ({| Http.resp_status := 200; Http.resp_body := "OK" |},
   {| Proc.now := Proc.now w; Proc.wake := Proc.wake w; Proc.sleeps := Proc.sleeps w;
      Proc.id_source := Proc.id_source w; Proc.id_pos := S (S (Proc.id_pos w));
      Proc.spans := Proc.spans w ++
        [ {| Trace.span_name := "healthz";
             Trace.span_context :=
               {| Trace.sc_TraceID := Obs.next_TraceID w;
                  Trace.sc_SpanID := Obs.next_SpanID w |};
             Trace.span_parent := Trace.emptySpanContext;
             Trace.span_start := Proc.now w;
             Trace.span_end := Some (Proc.now w) |} ];
      Proc.stdout := Proc.stdout w;
      Proc.resp := Http.Write "OK" (Http.WriteHeader Http.StatusOK Http.fresh) |}).
Proof.
  unfold Obs.next_TraceID, Obs.next_SpanID.
  destruct w as [t0 wk sl src pos sp out rw].
  unfold_pipeline. reflexivity.
Qed.

(** C4, as stated, fails: a request to /healthz does end a span, the
    root span that [otelhttp.NewHandler] starts for the route. *)
Lemma healthz_span_counterexample :
  Obs.new_spans Sample.world
    (Proc.exec (App.serve Sample.passing "/healthz") Sample.world) <> [].
Proof.
  vm_compute. intros H. discriminate H.
Qed.

(** C4, amended: after any sequence of earlier requests, from any
    world, a request to /healthz returns status 200 with body [OK],
    writes no log record, sleeps for no time, and ends exactly one span:
    the root span [healthz] of the instrumented handler, with no child
    span under it. *)
Theorem healthz_unconditional
        (w : Proc.World) (earlier : list (Rand.Draws * string)) (d : Rand.Draws) :
  let w1 := Proc.exec (App.serve_all earlier) w in
  let w2 := Proc.exec (App.serve d "/healthz") w1 in
  Proc.eval (App.serve d "/healthz") w1 =
    {| Http.resp_status := 200; Http.resp_body := "OK" |} /\
  Obs.new_logs w1 w2 = [] /\
  Obs.new_sleeps w1 w2 = [] /\
  exists root,
    Obs.new_spans w1 w2 = [root] /\
    Trace.span_name root = "healthz" /\
    Trace.span_parent root = Trace.emptySpanContext.
Proof.
  intros w1 w2. subst w2. generalize w1. clear w1. intros w1.
  unfold Proc.eval, Proc.exec. rewrite serve_healthz_run. cbn [fst snd].
  unfold Obs.new_logs, Obs.new_sleeps, Obs.new_spans.
  cbn [Proc.stdout Proc.sleeps Proc.spans].
  rewrite !skipn_length_same, skipn_length_app.
  repeat split. eexists. repeat split.
Qed.

(** ** initOTel *)

Lemma NewConfig_insecure_endpoint (base : Otlp.Config) (e : string) :
  Otlp.NewConfig base [Otlp.WithInsecure; Otlp.WithEndpoint e] =
  {| Otlp.cfg_endpoint := e; Otlp.cfg_insecure := true |}.
Proof. reflexivity. Qed.

(** What [initOTel] leaves behind when it returns: both exporters
    started over the one configuration, nothing queued, nothing shut
    down. *)
Lemma initOTel_started (lib : App.Lib) (env : gmap string string) (t : Sdk.Telemetry) :
  App.initOTel lib env = App.Started t ->
  let e := Os.Getenv env "OTEL_EXPORTER_OTLP_ENDPOINT" in
  let cfg := {| Otlp.cfg_endpoint := if String.eqb e EmptyString
                                     then "otel-collector:4317" else e;
                Otlp.cfg_insecure := true |} in
  let res := [("service.name", "sample-app"); ("service.version", "1.0.0")] in
  t = {| Sdk.tracerProvider :=
           Sdk.NewTracerProvider
             {| Otlp.exp_cfg := cfg; Otlp.exp_started := true;
                Otlp.exp_sent := []; Otlp.exp_conn_closes := 0 |} res;
         Sdk.meterProvider :=
           Sdk.NewMeterProvider
             {| Otlp.exp_cfg := cfg; Otlp.exp_started := true;
                Otlp.exp_sent := []; Otlp.exp_conn_closes := 0 |} res |}.
Proof.
  unfold App.initOTel, App.resource_New, Otlp.New.
  destruct (App.resource_New_err lib); [discriminate |].
  rewrite !NewConfig_insecure_endpoint.
  destruct (App.otlptracegrpc_New_err lib _); [discriminate |].
  destruct (App.otlpmetricgrpc_New_err lib _); [discriminate |].
  intros H. injection H as <-. reflexivity.
Qed.

(** With libraries that report no error, [initOTel] returns. *)
Lemma initOTel_returns (lib : App.Lib) (env : gmap string string) :
  App.resource_New_err lib = None ->
  (forall c, App.otlptracegrpc_New_err lib c = None) ->
  (forall c, App.otlpmetricgrpc_New_err lib c = None) ->
  exists t, App.initOTel lib env = App.Started t.
Proof.
  intros Hr Ht Hm. unfold App.initOTel, App.resource_New, Otlp.New.
  rewrite Hr, Ht, Hm. eexists. reflexivity.
Qed.

(** C7: when [initOTel] returns, the trace exporter and the metric
    exporter are bound to one endpoint over an insecure transport: the
    default [otel-collector:4317] when the environment variable is unset
    or empty, and its value otherwise. *)
Theorem initOTel_endpoint (lib : App.Lib) (env : gmap string string) (t : Sdk.Telemetry) :
  App.initOTel lib env = App.Started t ->
  let trace_cfg := Otlp.exp_cfg (Sdk.trace_exporter t) in
  let metric_cfg := Otlp.exp_cfg (Sdk.metric_exporter t) in
  (env !! "OTEL_EXPORTER_OTLP_ENDPOINT" = None \/
   env !! "OTEL_EXPORTER_OTLP_ENDPOINT" = Some EmptyString ->
   Otlp.cfg_endpoint trace_cfg = "otel-collector:4317") /\
  (forall v, env !! "OTEL_EXPORTER_OTLP_ENDPOINT" = Some v -> v <> EmptyString ->
             Otlp.cfg_endpoint trace_cfg = v) /\
  Otlp.cfg_endpoint metric_cfg = Otlp.cfg_endpoint trace_cfg /\
  Otlp.cfg_insecure trace_cfg = true /\
  Otlp.cfg_insecure metric_cfg = true.
Proof.
  intros H trace_cfg metric_cfg. subst trace_cfg metric_cfg.
  rewrite (initOTel_started _ _ _ H).
  cbn [Sdk.trace_exporter Sdk.metric_exporter Sdk.NewTracerProvider Sdk.NewMeterProvider
       Sdk.tracerProvider Sdk.meterProvider Sdk.tp_batcher Sdk.bsp_exporter
       Sdk.mp_reader Sdk.pr_exporter Otlp.exp_cfg Otlp.cfg_endpoint Otlp.cfg_insecure].
  unfold Os.Getenv.
  split; [| split; [| repeat split]].
  - intros [-> | ->]; reflexivity.
  - intros v -> Hv. cbn [default from_option id].
    destruct (String.eqb_spec v EmptyString) as [E | _]; [contradiction | reflexivity].
Qed.

Lemma initOTel_endpoint_witness :
  exists t u,
    App.initOTel Sample.lib Sample.env_unset = App.Started t /\
    Otlp.cfg_endpoint (Otlp.exp_cfg (Sdk.trace_exporter t)) = "otel-collector:4317" /\
    Otlp.cfg_endpoint (Otlp.exp_cfg (Sdk.metric_exporter t)) = "otel-collector:4317" /\
    App.initOTel Sample.lib Sample.env_set = App.Started u /\
    Otlp.cfg_endpoint (Otlp.exp_cfg (Sdk.trace_exporter u)) = "collector.internal:4317" /\
    Otlp.cfg_endpoint (Otlp.exp_cfg (Sdk.metric_exporter u)) = "collector.internal:4317".
Proof.
  destruct (initOTel_endpoint Sample.lib Sample.env_unset _ eq_refl) as (Hd & _ & Hm & _).
  destruct (initOTel_endpoint Sample.lib Sample.env_set _ eq_refl) as (_ & Hv & Hm' & _).
  do 2 eexists.
  split; [reflexivity |].
  split; [apply Hd; left; reflexivity |].
  split; [rewrite Hm; apply Hd; left; reflexivity |].
  split; [reflexivity |].
  split; [apply Hv; [reflexivity | discriminate] |].
  rewrite Hm'. apply Hv; [reflexivity | discriminate].
Defined.

(** ** The cleanup function *)

Section Lifecycle.
Import Sdk.

Lemma initOTel_live (lib : App.Lib) (env : gmap string string) (t : Telemetry) :
  App.initOTel lib env = App.Started t -> live t.
Proof.
  intros H. rewrite (initOTel_started _ _ _ H). unfold live. cbn. repeat split.
Qed.

Lemma enqueue_live (s : Trace.Span) (t : Telemetry) : live t -> live (enqueue s t).
Proof.
  destruct t as [[res [q e once ch] sd] [res' [e' pend once']]].
  unfold live, enqueue. cbn. intros (H1 & -> & H3 & H4 & H5 & H6 & H7 & H8).
  cbn. repeat split; assumption.
Qed.

Lemma enqueue_down (s : Trace.Span) (t : Telemetry) : down t -> enqueue s t = t.
Proof.
  unfold down, enqueue. intros (_ & H2 & _). rewrite H2. reflexivity.
Qed.

Lemma collect_live (m : Metric) (t : Telemetry) : live t -> live (collect m t).
Proof.
  destruct t as [[res [q e once ch] sd] [res' [e' pend once']]].
  unfold live, collect. cbn. intros (H1 & H2 & H3 & H4 & H5 & -> & H7 & H8).
  cbn. repeat split; assumption.
Qed.

Lemma collect_down (m : Metric) (t : Telemetry) : down t -> collect m t = t.
Proof.
  unfold down, collect. intros (_ & _ & _ & _ & _ & _ & H7 & _). rewrite H7. reflexivity.
Qed.

(** The effective shutdown: from a live pipeline the cleanup function
    returns, exports what is queued and pending, closes each connection
    once and leaves the pipeline down. *)
Lemma shutdown_live (t : Telemetry) :
  live t ->
  exists t',
    App.shutdown t = Returned t' /\ down t' /\
    Otlp.exp_sent (trace_exporter t') =
      (Otlp.exp_sent (trace_exporter t) ++ bsp_queue (tp_batcher (tracerProvider t)))%list /\
    Otlp.exp_sent (metric_exporter t') =
      (Otlp.exp_sent (metric_exporter t) ++ pr_pending (mp_reader (meterProvider t)))%list.
Proof.
  destruct t as [[res [q e once ch] sd] [res' [e' pend once']]].
  unfold live. cbn. intros (-> & -> & -> & He & Hc & -> & He' & Hc').
  unfold App.shutdown, TracerProvider_Shutdown, BatchSpanProcessor_Shutdown,
    MeterProvider_Shutdown, PeriodicReader_Shutdown, close_chan,
    Otlp.Shutdown, Otlp.Export.
  cbn. rewrite He, He'. cbn. rewrite Hc, Hc'.
  eexists. split; [reflexivity |]. unfold down, trace_exporter, metric_exporter. cbn.
  repeat split.
Qed.

(** Any later call: on a pipeline that is down the cleanup function
    returns and changes nothing. *)
Lemma shutdown_down (t : Telemetry) : down t -> App.shutdown t = Returned t.
Proof.
  destruct t as [[res [q e once ch] sd] [res' [e' pend once']]].
  unfold down. cbn. intros (-> & -> & -> & -> & He & Hc & -> & -> & He' & Hc').
  reflexivity.
Qed.

(** The guards carry the result: were the stop channel closed with the
    [sync.Once] of the batcher still unused, the cleanup function would
    panic. *)
Example shutdown_needs_the_guard :
  App.shutdown
    {| tracerProvider :=
         {| tp_resource := [];
            tp_batcher := {| bsp_queue := [];
                             bsp_exporter := trace_exporter Sample.telemetry;
                             bsp_stopOnce := false;
                             bsp_stopCh_closed := true |};
            tp_isShutdown := false |};
       meterProvider := meterProvider Sample.telemetry |}
  = Panicked "close of closed channel".
Proof. reflexivity. Qed.

(** The pipeline is live or down in every state that the process
    reaches. *)
Lemma reachable_live_or_down (t0 t : Telemetry) :
  live t0 -> App.reachable t0 t -> live t \/ down t.
Proof.
  intros H0 Hr. induction Hr as [| s t Hr IH | m t Hr IH | t t' Hr IH Hs].
  - left. exact H0.
  - destruct IH as [L | D].
    + left. apply enqueue_live, L.
    + right. rewrite (enqueue_down s t D). exact D.
  - destruct IH as [L | D].
    + left. apply collect_live, L.
    + right. rewrite (collect_down m t D). exact D.
  - right. destruct IH as [L | D].
    + destruct (shutdown_live t L) as (t'' & E & D & _).
      rewrite E in Hs. injection Hs as <-. exact D.
    + rewrite (shutdown_down t D) in Hs. injection Hs as <-. exact D.
Qed.

End Lifecycle.

(** C8: in every state that the process reaches after [initOTel], a call
    of the cleanup function returns without a panic, and a further call
    returns as well and changes nothing; after the call each exporter's
    connection has been closed exactly once and has been sent what was
    queued or pending before, so the flush and the close happen in the
    effective shutdown only. *)
Theorem shutdown_idempotent
        (lib : App.Lib) (env : gmap string string) (t0 t : Sdk.Telemetry) :
  App.initOTel lib env = App.Started t0 ->
  App.reachable t0 t ->
  exists t1,
    App.shutdown t = Sdk.Returned t1 /\
    App.shutdown t1 = Sdk.Returned t1 /\
    Otlp.exp_conn_closes (Sdk.trace_exporter t1) = 1%nat /\
    Otlp.exp_conn_closes (Sdk.metric_exporter t1) = 1%nat /\
    Otlp.exp_sent (Sdk.trace_exporter t1) =
      (Otlp.exp_sent (Sdk.trace_exporter t) ++
       Sdk.bsp_queue (Sdk.tp_batcher (Sdk.tracerProvider t)))%list /\
    Otlp.exp_sent (Sdk.metric_exporter t1) =
      (Otlp.exp_sent (Sdk.metric_exporter t) ++
       Sdk.pr_pending (Sdk.mp_reader (Sdk.meterProvider t)))%list.
Proof.
  intros Hi Hr.
  destruct (reachable_live_or_down t0 t (initOTel_live _ _ _ Hi) Hr) as [L | D].
  - destruct (shutdown_live t L) as (t1 & E & D & Hs & Hm).
    exists t1. split; [exact E |]. split; [apply shutdown_down, D |].
    destruct D as (_ & _ & _ & _ & _ & Hc & _ & _ & _ & Hc').
    repeat split; assumption.
  - exists t. split; [apply shutdown_down, D |]. split; [apply shutdown_down, D |].
    destruct D as (_ & _ & _ & Hq & _ & Hc & _ & Hp & _ & Hc').
    unfold Sdk.trace_exporter, Sdk.metric_exporter in *.
    rewrite Hq, Hp, !app_nil_r. repeat split; assumption.
Qed.

Lemma shutdown_idempotent_witness :
  exists t1,
    App.initOTel Sample.lib Sample.env_unset = App.Started Sample.telemetry /\
    App.shutdown (Sdk.enqueue Sample.span (Sdk.collect Sample.metric Sample.telemetry))
      = Sdk.Returned t1 /\
    App.shutdown t1 = Sdk.Returned t1 /\
    Otlp.exp_conn_closes (Sdk.trace_exporter t1) = 1%nat /\
    Otlp.exp_conn_closes (Sdk.metric_exporter t1) = 1%nat /\
    Otlp.exp_sent (Sdk.trace_exporter t1) = [Sample.span] /\
    Otlp.exp_sent (Sdk.metric_exporter t1) = [Sample.metric].
Proof.
  destruct (shutdown_idempotent Sample.lib Sample.env_unset Sample.telemetry
              (Sdk.enqueue Sample.span (Sdk.collect Sample.metric Sample.telemetry)))
    as (t1 & E1 & E2 & Hc & Hc' & Hs & Hm).
  - reflexivity.
  - apply App.reach_enqueue, App.reach_collect, App.reach_start.
  - exists t1. split; [reflexivity |]. repeat split; assumption.
Defined.

(* ===================================================================== *)
(** * Further properties of the handlers *)
(* ===================================================================== *)

(** ** The identifiers in the log record *)

Lemma hex_digit_is_hex (z : Z) : Run.is_hex_digit (Hex.digit z) = true.
Proof.
  destruct z as [| p | p]; try reflexivity.
  do 4 (destruct p as [p | p |]; try reflexivity).
Qed.

Lemma hex_encode_acc_is_hex (n : nat) :
  forall (z : Z) (acc : string),
    Run.string_forallb Run.is_hex_digit acc = true ->
    Run.string_forallb Run.is_hex_digit (Hex.encode_acc n z acc) = true.
Proof.
  induction n as [| n IH]; intros z acc Hacc; cbn [Hex.encode_acc].
  - exact Hacc.
  - apply IH. cbn [Run.string_forallb]. rewrite hex_digit_is_hex, Hacc. reflexivity.
Qed.

Lemma TraceID_String_inj (a b : Z) :
  Trace.TraceID_String (Trace.TraceID_of a) = Trace.TraceID_String (Trace.TraceID_of b) ->
  Trace.TraceID_of a = Trace.TraceID_of b.
Proof.
  unfold Trace.TraceID_String, Hex.EncodeToString, Trace.TraceID_of. intros H.
  apply (hex_encode_acc_inj (2 * 16)) in H; [apply H | | | reflexivity].
  - change (16 ^ Z.of_nat (2 * 16)) with (2 ^ 128). apply Z.mod_pos_bound. lia.
  - change (16 ^ Z.of_nat (2 * 16)) with (2 ^ 128). apply Z.mod_pos_bound. lia.
Qed.

(** What a request to /work logs under trace_id and span_id. *)
Lemma logged_ids (w : Proc.World) (d : Rand.Draws) :
  Run.logged "trace_id" d w =
    Some (Slog.StringValue (Trace.TraceID_String (Obs.next_TraceID w))) /\
  Run.logged "span_id" d w =
    Some (Slog.StringValue (Trace.SpanID_String (Obs.next_SpanID w))).
Proof.
  unfold Run.logged.
  run_work w d c1 c2 n Hval.
  split; reflexivity.
Qed.

(** X1: the trace_id attribute of the record that a request to /work
    logs is a string of 32 lower-case hexadecimal digits and the span_id
    attribute one of 16, whatever identifiers the generator returns. *)
Theorem logged_ids_format (w : Proc.World) (d : Rand.Draws) :
  exists t s,
    Run.logged "trace_id" d w = Some (Slog.StringValue t) /\
    String.length t = 32%nat /\
    Run.string_forallb Run.is_hex_digit t = true /\
    Run.logged "span_id" d w = Some (Slog.StringValue s) /\
    String.length s = 16%nat /\
    Run.string_forallb Run.is_hex_digit s = true.
Proof.
  destruct (logged_ids w d) as [Ht Hs].
  do 2 eexists.
  split; [exact Ht |]. split; [apply hex_encode_acc_length |].
  split; [apply hex_encode_acc_is_hex; reflexivity |].
  split; [exact Hs |]. split; [apply hex_encode_acc_length |].
  apply hex_encode_acc_is_hex; reflexivity.
Qed.

(** X2: the logged identifiers determine the root span: two requests to
    /work that log the same trace_id have root spans of the same trace,
    and two that log the same span_id have root spans with the same span
    identifier. *)
Theorem logged_ids_identify_root (w w' : Proc.World) (d d' : Rand.Draws) :
  (Run.logged "trace_id" d w = Run.logged "trace_id" d' w' ->
   Obs.next_TraceID w = Obs.next_TraceID w') /\
  (Run.logged "span_id" d w = Run.logged "span_id" d' w' ->
   Obs.next_SpanID w = Obs.next_SpanID w').
Proof.
  destruct (logged_ids w d) as [Ht Hs].
  destruct (logged_ids w' d') as [Ht' Hs'].
  rewrite Ht, Ht', Hs, Hs'.
  split; intros H.
  - assert (E : Slog.StringValue (Trace.TraceID_String (Obs.next_TraceID w)) =
                Slog.StringValue (Trace.TraceID_String (Obs.next_TraceID w')))
      by congruence.
    apply StringValue_inj, TraceID_String_inj in E. exact E.
  - assert (E : Slog.StringValue (Trace.SpanID_String (Obs.next_SpanID w)) =
                Slog.StringValue (Trace.SpanID_String (Obs.next_SpanID w')))
      by congruence.
    apply StringValue_inj, SpanID_String_inj in E. exact E.
Qed.

Lemma logged_ids_identify_root_witness :
  let later := Proc.set_clock 5000 [] Sample.world in
  Run.logged "trace_id" Sample.failing Sample.world =
    Run.logged "trace_id" Sample.passing later /\
  Run.logged "span_id" Sample.failing Sample.world =
    Run.logged "span_id" Sample.passing later /\
  Obs.next_TraceID Sample.world = Obs.next_TraceID later /\
  Obs.next_SpanID Sample.world = Obs.next_SpanID later.
Proof.
  intros later.
  assert (Ht : Run.logged "trace_id" Sample.failing Sample.world =
               Run.logged "trace_id" Sample.passing later) by reflexivity.
  assert (Hs : Run.logged "span_id" Sample.failing Sample.world =
               Run.logged "span_id" Sample.passing later) by reflexivity.
  split; [exact Ht |]. split; [exact Hs |].
  destruct (logged_ids_identify_root Sample.world later Sample.failing Sample.passing)
    as [HT HS].
  split; [exact (HT Ht) | exact (HS Hs)].
Defined.

(** ** The spans of a request in time *)








(** X6: the delay of db_cache_lookup is kept nowhere: two requests to
    /work from one world that differ in the cache draw only get the same
    response and log a record with the same level, message and
    attributes, values included. *)
Theorem work_cache_delay_not_retained
        (w : Proc.World) (o : Float32.float32) (l c c' : Z) :
  let d := {| Rand.latency_src := l; Rand.cache_src := c; Rand.outcome_draw := o |} in
  let d' := {| Rand.latency_src := l; Rand.cache_src := c'; Rand.outcome_draw := o |} in
  Proc.eval (App.serve d "/work") w = Proc.eval (App.serve d' "/work") w /\
  map Run.log_content (Obs.new_logs w (Proc.exec (App.serve d "/work") w)) =
  map Run.log_content (Obs.new_logs w (Proc.exec (App.serve d' "/work") w)).
Proof.
  intros d d'. subst d d'.
  run_work w {| Rand.latency_src := l; Rand.cache_src := c; Rand.outcome_draw := o |}
           c1 c2 n Hval.
  run_work w {| Rand.latency_src := l; Rand.cache_src := c'; Rand.outcome_draw := o |}
           c1' c2' n' Hval'.
  split; reflexivity.
Qed.

(** ** The handler without the instrumented layer *)

(** X7: when [workHandler] runs on a request whose context carries no
    span, as it would without [otelhttp.NewHandler], the record it logs
    has the all-zero trace_id and span_id, and the two spans it starts
    have no parent: each begins a trace of its own, with the next
    identifiers of the generator. *)
Theorem workHandler_without_root_span
        (w : Proc.World) (d : Rand.Draws) (q : Http.Request) :
  let r := {| Server.req := q; Server.req_Context := Trace.Background |} in
  let w' := Proc.exec (App.workHandler d r) w in
  exists sw cl rec,
    Obs.new_spans w w' = [sw; cl] /\
    Obs.new_logs w w' = [rec] /\
    Slog.lookup "trace_id" (Slog.rec_attrs rec) =
      Some (Slog.StringValue "00000000000000000000000000000000") /\
    Slog.lookup "span_id" (Slog.rec_attrs rec) =
      Some (Slog.StringValue "0000000000000000") /\
    Trace.span_parent sw = Trace.emptySpanContext /\
    Trace.span_parent cl = Trace.emptySpanContext /\
    Trace.span_context sw =
      {| Trace.sc_TraceID := Obs.next_TraceID w; Trace.sc_SpanID := Obs.next_SpanID w |} /\
    Trace.span_context cl =
      {| Trace.sc_TraceID := Trace.TraceID_of (Proc.id_source w (2 + Proc.id_pos w));
         Trace.sc_SpanID := Obs.later_SpanID w 1 |}.
Proof.
  intros r w'. subst r w'.
  unfold Obs.next_TraceID, Obs.next_SpanID, Obs.later_SpanID, Proc.exec,
    Obs.new_spans, Obs.new_logs.
  destruct w as [t0 wk sl src pos sp out rw].
  unfold_pipeline. unfold Trace.TraceID_IsValid. cbn.
  destruct (Float32.ltb (Rand.outcome_draw d) Float32.c_0_2); cbn;
    rewrite <- !app_assoc, !skipn_length_app; cbn;
    do 3 eexists; repeat split.
Qed.

(** ** Runs of several requests *)

Lemma serve_not_found (w : Proc.World) (d : Rand.Draws) (path : string) :
  path <> "/healthz" -> path <> "/work" ->
  App.serve d path w =
  ({| Http.resp_status := 404;
      Http.resp_body := String.append "404 page not found" Http.LF |},
   Proc.set_resp (Http.Error "404 page not found" Http.StatusNotFound Http.fresh) w).
Proof.
  intros Hh Hw.
  unfold App.serve, Server.serve, App.mux.
  cbn [Server.ServeMux_Handler Http.URL_Path].
  rewrite (proj2 (String.eqb_neq "/healthz" path)) by congruence.
  rewrite (proj2 (String.eqb_neq "/work" path)) by congruence.
  destruct w as [t0 wk sl src pos sp out rw]. reflexivity.
Qed.


Lemma serve_all_cons (w : Proc.World) (d : Rand.Draws) (path : string)
      (rest : list (Rand.Draws * string)) :
  App.serve_all ((d, path) :: rest) w =
  (Proc.eval (App.serve d path) w ::
     Proc.eval (App.serve_all rest) (Proc.exec (App.serve d path) w),
   Proc.exec (App.serve_all rest) (Proc.exec (App.serve d path) w)).
Proof.
  cbn [App.serve_all]. unfold Proc.bind, Proc.ret, Proc.eval, Proc.exec.
  destruct (App.serve d path w) as [r w1]. cbn [fst snd].
  destruct (App.serve_all rest w1) as [rs w2]. reflexivity.
Qed.


(** What one request adds to the spans and to the log. *)
Lemma serve_appends (w : Proc.World) (d : Rand.Draws) (path : string) :
  exists xs ys,
    Proc.spans (Proc.exec (App.serve d path) w) = (Proc.spans w ++ xs)%list /\
    Proc.stdout (Proc.exec (App.serve d path) w) = (Proc.stdout w ++ ys)%list /\
    List.length xs = (3 * Run.requests_to "/work" [(d, path)] +
                      Run.requests_to "/healthz" [(d, path)])%nat /\
    List.length ys = Run.requests_to "/work" [(d, path)].
Proof.
  unfold Proc.exec, Run.requests_to. cbn [filter snd].
  destruct (String.eqb_spec path "/healthz") as [-> | Hh].
  - rewrite serve_healthz_run. cbn.
    eexists. exists []. split; [reflexivity |].
    split; [symmetry; apply app_nil_r |]. split; reflexivity.
  - destruct (String.eqb_spec path "/work") as [-> | Hw].
    + destruct (serve_work_run w d) as (c1 & c2 & n & -> & _).
      cbn. do 2 eexists. split; [reflexivity |]. split; [reflexivity |].
      split; reflexivity.
    + rewrite serve_not_found by assumption.
      destruct w as [t0 wk sl src pos sp out rw]. cbn.
      exists [], []. rewrite !app_nil_r. repeat split.
Qed.

Lemma requests_to_cons (path : string) (r : Rand.Draws * string)
      (rest : list (Rand.Draws * string)) :
  Run.requests_to path (r :: rest) =
  (Run.requests_to path [r] + Run.requests_to path rest)%nat.
Proof.
  unfold Run.requests_to. cbn [filter].
  destruct (String.eqb (snd r) path); reflexivity.
Qed.

Lemma serve_all_appends (reqs : list (Rand.Draws * string)) :
  forall w : Proc.World,
  exists xs ys,
    Proc.spans (Proc.exec (App.serve_all reqs) w) = (Proc.spans w ++ xs)%list /\
    Proc.stdout (Proc.exec (App.serve_all reqs) w) = (Proc.stdout w ++ ys)%list /\
    List.length xs = (3 * Run.requests_to "/work" reqs +
                      Run.requests_to "/healthz" reqs)%nat /\
    List.length ys = Run.requests_to "/work" reqs.
Proof.
  induction reqs as [| [d path] rest IH]; intros w.
  - exists [], []. rewrite !app_nil_r. repeat split.
  - unfold Proc.exec at 1 2. rewrite serve_all_cons. cbn [snd].
    destruct (serve_appends w d path) as (xs & ys & Hs & Hl & Hxs & Hys).
    destruct (IH (Proc.exec (App.serve d path) w)) as (xs' & ys' & Hs' & Hl' & Hxs' & Hys').
    exists (xs ++ xs')%list, (ys ++ ys')%list.
    rewrite (requests_to_cons "/work" (d, path) rest).
    rewrite (requests_to_cons "/healthz" (d, path) rest).
    rewrite Hs', Hl', Hs, Hl, <- !app_assoc, !length_app, Hxs, Hys, Hxs', Hys'.
    repeat split; lia.
Qed.

(** X9: over a run of requests the server writes one log record for
    each request to /work and none for any other, and ends three spans
    for each request to /work, one for each request to /healthz and none
    for a request to any other path. *)
Theorem run_telemetry_counts (reqs : list (Rand.Draws * string)) (w : Proc.World) :
  let w' := Proc.exec (App.serve_all reqs) w in
  List.length (Obs.new_logs w w') = Run.requests_to "/work" reqs /\
  List.length (Obs.new_spans w w') =
    (3 * Run.requests_to "/work" reqs + Run.requests_to "/healthz" reqs)%nat.
Proof.
  intros w'. subst w'.
  destruct (serve_all_appends reqs w) as (xs & ys & Hs & Hl & Hxs & Hys).
  unfold Obs.new_logs, Obs.new_spans.
  rewrite Hs, Hl, !skipn_length_app. split; assumption.
Qed.

(** ** Start-up, the providers and main *)

(** X10: [initOTel] returns exactly when none of its three
    constructions fails, the exporters being checked on the
    configuration with the chosen endpoint; otherwise the process ends
    through [log.Fatalf], and the message names the first step that
    failed, in the order resource, trace exporter, metric exporter. *)
Theorem initOTel_starts_iff (lib : App.Lib) (env : gmap string string) :
  let e := Os.Getenv env "OTEL_EXPORTER_OTLP_ENDPOINT" in
  let cfg := {| Otlp.cfg_endpoint := if String.eqb e EmptyString
                                     then "otel-collector:4317" else e;
                Otlp.cfg_insecure := true |} in
  ((exists t, App.initOTel lib env = App.Started t) <->
   App.resource_New_err lib = None /\
   App.otlptracegrpc_New_err lib cfg = None /\
   App.otlpmetricgrpc_New_err lib cfg = None) /\
  (forall msg, App.initOTel lib env = App.Fatalf msg ->
     (exists err, App.resource_New_err lib = Some err /\
                  msg = String.append "failed to create resource: " err) \/
     (exists err, App.resource_New_err lib = None /\
                  App.otlptracegrpc_New_err lib cfg = Some err /\
                  msg = String.append "failed to create trace exporter: " err) \/
     (exists err, App.resource_New_err lib = None /\
                  App.otlptracegrpc_New_err lib cfg = None /\
                  App.otlpmetricgrpc_New_err lib cfg = Some err /\
                  msg = String.append "failed to create metric exporter: " err)).
Proof.
  intros e cfg. subst e cfg.
  unfold App.initOTel, App.resource_New, Otlp.New.
  rewrite !NewConfig_insecure_endpoint.
  destruct (App.resource_New_err lib) as [er |].
  - split.
    + split; [intros [t H]; discriminate H | intros (H & _); discriminate H].
    + intros msg H. injection H as <-. left. exists er. split; reflexivity.
  - destruct (App.otlptracegrpc_New_err lib _) as [et |].
    + split.
      * split; [intros [t H]; discriminate H | intros (_ & H & _); discriminate H].
      * intros msg H. injection H as <-. right. left. exists et. repeat split.
    + destruct (App.otlpmetricgrpc_New_err lib _) as [em |].
      * split.
        -- split; [intros [t H]; discriminate H | intros (_ & _ & H); discriminate H].
        -- intros msg H. injection H as <-. right. right. exists em. repeat split.
      * split.
        -- split; [intros _; repeat split | intros _; eexists; reflexivity].
        -- intros msg H. discriminate H.
Qed.

Lemma initOTel_starts_iff_witness :
  App.resource_New_err Sample.lib = None /\
  exists t, App.initOTel Sample.lib Sample.env_set = App.Started t.
Proof.
  split; [reflexivity |].
  apply (initOTel_starts_iff Sample.lib Sample.env_set).
  repeat split.
Defined.

Section LifecycleInvariant.
Import Sdk.

(** X11: in every state that the process reaches after [initOTel], the
    two providers are shut down together or not at all, and each
    exporter's connection has been closed exactly once if they are and
    never if they are not: the cleanup function leaves no provider
    running beside a stopped one and closes nothing twice. *)
Theorem providers_shut_down_together
        (lib : App.Lib) (env : gmap string string) (t0 t : Telemetry) :
  App.initOTel lib env = App.Started t0 ->
  App.reachable t0 t ->
  tp_isShutdown (tracerProvider t) = pr_shutdownOnce (mp_reader (meterProvider t)) /\
  Otlp.exp_conn_closes (trace_exporter t) =
    (if tp_isShutdown (tracerProvider t) then 1 else 0)%nat /\
  Otlp.exp_conn_closes (metric_exporter t) =
    (if tp_isShutdown (tracerProvider t) then 1 else 0)%nat /\
  Otlp.exp_started (trace_exporter t) = negb (tp_isShutdown (tracerProvider t)) /\
  Otlp.exp_started (metric_exporter t) = negb (tp_isShutdown (tracerProvider t)).
Proof.
  intros Hi Hr.
  destruct (reachable_live_or_down t0 t (initOTel_live _ _ _ Hi) Hr) as [L | D].
  - destruct L as (H1 & H2 & H3 & H4 & H5 & H6 & H7 & H8).
    unfold trace_exporter, metric_exporter.
    rewrite H1, H4, H5, H6, H7, H8. repeat split.
  - destruct D as (H1 & H2 & H3 & H4 & H5 & H6 & H7 & H8 & H9 & H10).
    unfold trace_exporter, metric_exporter.
    rewrite H1, H5, H6, H7, H9, H10. repeat split.
Qed.

End LifecycleInvariant.

Lemma providers_shut_down_together_witness :
  exists t,
    App.initOTel Sample.lib Sample.env_unset = App.Started Sample.telemetry /\
    App.shutdown (Sdk.enqueue Sample.span Sample.telemetry) = Sdk.Returned t /\
    Sdk.tp_isShutdown (Sdk.tracerProvider t) = true /\
    Sdk.pr_shutdownOnce (Sdk.mp_reader (Sdk.meterProvider t)) = true /\
    Otlp.exp_conn_closes (Sdk.trace_exporter t) = 1%nat /\
    Otlp.exp_conn_closes (Sdk.metric_exporter t) = 1%nat.
Proof.
  eexists. split; [reflexivity |]. split; [reflexivity |].
  match goal with
  | |- Sdk.tp_isShutdown (Sdk.tracerProvider ?t) = _ /\ _ =>
      destruct (providers_shut_down_together
                  Sample.lib Sample.env_unset Sample.telemetry t eq_refl)
        as (Hb & Hc & Hc' & _)
  end.
  - eapply App.reach_shutdown; [apply App.reach_enqueue, App.reach_start | reflexivity].
  - split; [reflexivity |]. split; [rewrite <- Hb; reflexivity |].
    split; [exact Hc | exact Hc'].
Defined.




(** The deferred call does run when the body returns. *)
Example with_defer_runs_on_return :
  Main.with_defer Main.deferred_shutdown (fun p => (Main.Returns, p))
    {| Main.telemetry := Some Sample.telemetry; Main.world := Sample.world;
       Main.log_lines := [] |}
  = (Main.Returns,
     {| Main.telemetry :=
          match App.shutdown Sample.telemetry with
          | Sdk.Returned t => Some t
          | Sdk.Panicked _ => None
          end;
        Main.world := Sample.world; Main.log_lines := [] |}).
Proof. reflexivity. Qed.

(** ** Milliseconds and durations *)

(** X13: converting a number of milliseconds to a [time.Duration] and
    back with [Milliseconds()] returns the number as long as the
    duration fits in an int64, that is for up to 9223372036854 ms in
    either direction; one millisecond more wraps around. The bounds 400
    and 200 of the handler are inside this range. *)
Theorem milliseconds_round_trip (n : Z) :
  - 9223372036854 <= n <= 9223372036854 ->
  Time.Milliseconds (Int64.mul (Time.of_int n) Time.Millisecond) = n.
Proof.
  intros Hn.
  unfold Time.Milliseconds, Int64.quo, Int64.mul, Time.of_int, Int64.wrap,
    Int64.modulus, Int64.half, Time.Millisecond, Time.Microsecond, Time.Nanosecond.
  change (2 ^ 63) with 9223372036854775808.
  change (2 ^ 64) with 18446744073709551616.
  change (1000 * (1000 * 1)) with 1000000.
  rewrite (Z.mod_small (n + 9223372036854775808)) by lia.
  replace (n + 9223372036854775808 - 9223372036854775808) with n by lia.
  rewrite (Z.mod_small (n * 1000000 + 9223372036854775808)) by lia.
  replace (n * 1000000 + 9223372036854775808 - 9223372036854775808)
    with (n * 1000000) by lia.
  rewrite Z.quot_mul by lia.
  rewrite Z.mod_small by lia. lia.
Qed.

Lemma milliseconds_round_trip_witness :
  Time.Milliseconds (Int64.mul (Time.of_int 399) Time.Millisecond) = 399 /\
  Time.Milliseconds (Int64.mul (Time.of_int 9223372036854) Time.Millisecond)
    = 9223372036854.
Proof.
  split; apply milliseconds_round_trip; lia.
Defined.

(** One millisecond past the bound the product wraps around. *)
Example one_more_millisecond_wraps :
  Time.Milliseconds (Int64.mul (Time.of_int 9223372036855) Time.Millisecond)
    = - 9223372036854.
Proof. reflexivity. Qed.
